(** * Meta-Forge Generator: validation and hardware-aware planning

    A shallow embedding of [src/Meta_Forge_Generator.py]:
    [ConstitutionalKernel.validate_domain_spec] and the methods of
    [MetaForgeGenerator].  Domain specifications are Python dictionaries
    ([Dict[str, Any]]), modelled as [gmap string value] over a universe of
    JSON-like Python values.  Exceptions are explicit results, and the two
    pieces of mutable state the generator touches (the [generation_log] of
    the generator and the list objects it allocates for warnings) are
    threaded through a small state-and-exception monad.

    Output written by [print] is not modelled; the evaluation of the
    arguments of [print], which can raise, is. *)

From Stdlib Require Import ZArith String List.
From stdpp Require Import gmap strings list fin_maps pretty.

#[local] Set Warnings "-register-all".
#[local] Open Scope string_scope.

(** ** Python values *)

(** The values a domain specification can carry.  Floats are left out: in
    every operation used below they behave like [VInt] (not subscriptable,
    not iterable, never equal to a string). *)
Inductive value : Type :=
| VNone
| VBool (b : bool)
| VInt (z : Z)
| VStr (s : string)
| VList (l : list value)
| VDict (d : gmap string value).

Abbreviation dict := (gmap string value).

(** The exceptions that can escape the modelled code. *)
Inductive exn : Type :=
| KeyError (key : string)
| TypeError
| AttributeError
| ConstitutionalViolation (msg : string).

Inductive result (A : Type) : Type :=
| Ok (a : A)
| Raise (e : exn).
Arguments Ok {A} a.
Arguments Raise {A} e.

Definition bindR {A B : Type} (r : result A) (k : A -> result B) : result B :=
  match r with
  | Ok a => k a
  | Raise e => Raise e
  end.

Declare Scope result_scope.
Delimit Scope result_scope with res.
Notation "x <- r ;; k" := (bindR r (fun x => k))
  (at level 100, r at next level, right associativity) : result_scope.

(** [d[k]] on a dictionary. *)
Definition dict_getitem (d : dict) (k : string) : result value :=
  match d !! k with
  | Some v => Ok v
  | None => Raise (KeyError k)
  end.

(** [v[k]] with a string key on an arbitrary value: only dictionaries accept
    it; strings and lists want integer indices, the rest is not
    subscriptable. *)
Definition getitem (v : value) (k : string) : result value :=
  match v with
  | VDict d => dict_getitem d k
  | _ => Raise TypeError
  end.

(** [d.get(k, default)] on a dictionary. *)
Definition dict_get (d : dict) (k : string) (default : value) : value :=
  match d !! k with
  | Some v => v
  | None => default
  end.

(** [v.get(k, default)] on an arbitrary value: only dictionaries have the
    method. *)
Definition get (v : value) (k : string) (default : value) : result value :=
  match v with
  | VDict d => Ok (dict_get d k default)
  | _ => Raise AttributeError
  end.

(** [v == s] for a string literal [s]. *)
Definition eq_str (v : value) (s : string) : bool :=
  match v with
  | VStr s' => String.eqb s' s
  | _ => false
  end.

(** [v in [s1, ..., sn]] for a list of string literals. *)
Definition in_strs (v : value) (l : list string) : bool :=
  existsb (eq_str v) l.

(** [k in d] on a dictionary. *)
Definition dict_contains (k : string) (d : dict) : bool :=
  match d !! k with
  | Some _ => true
  | None => false
  end.

(** [k in v] on an arbitrary value: key membership for a dictionary,
    substring test for a string, element membership for a list. *)
Definition contains (k : string) (v : value) : result bool :=
  match v with
  | VDict d => Ok (dict_contains k d)
  | VStr s => Ok (match String.index 0 k s with Some _ => true | None => false end)
  | VList l => Ok (existsb (fun x => eq_str x k) l)
  | _ => Raise TypeError
  end.

(** Truth value of an object in a condition. *)
Definition truthy (v : value) : bool :=
  match v with
  | VNone => false
  | VBool b => b
  | VInt z => negb (Z.eqb z 0)
  | VStr s => negb (String.eqb s "")
  | VList l => match l with [] => false | _ => true end
  | VDict d => negb (bool_decide (d = ∅))
  end.

(** Whether the value can be used as a dictionary key. *)
Definition hashable (v : value) : bool :=
  match v with
  | VList _ | VDict _ => false
  | _ => true
  end.

(** [str(v)], as an f-string renders a value.  The rendering of lists and
    dictionaries (element order, quoting) is left to the parameter
    [py_repr]. *)
Definition py_str (py_repr : value -> string) (v : value) : string :=
  match v with
  | VStr s => s
  | VNone => "None"
  | VBool true => "True"
  | VBool false => "False"
  | VInt z => pretty z
  | _ => py_repr v
  end.

(** ** State and the monad of the generator *)

(** An entry of [generation_log].  [log_warnings] is a reference: the entry
    holds the same list object as the parameters returned to the caller. *)
Record log_entry : Type := {
  log_domain : value;
  log_architecture : string;
  log_dain_enabled : bool;
  log_warnings : nat
}.

(** [lists] is the store of the list objects allocated for
    [generation_warnings], addressed by position; [generation_log] is the
    attribute of the generator instance. *)
Record state : Type := {
  lists : list (list string);
  generation_log : list log_entry
}.

(** [MetaForgeGenerator.__init__]: the log starts empty. *)
Definition init_state : state := {| lists := []; generation_log := [] |}.

Definition M (A : Type) : Type := state -> result A * state.

Definition ret {A : Type} (a : A) : M A := fun st => (Ok a, st).

Definition bind {A B : Type} (m : M A) (k : A -> M B) : M B :=
  fun st =>
    match m st with
    | (Ok a, st') => k a st'
    | (Raise e, st') => (Raise e, st')
    end.

Definition lift {A : Type} (r : result A) : M A := fun st => (r, st).

Declare Scope gen_scope.
Delimit Scope gen_scope with gen.
Notation "x <- m ;; k" := (bind m (fun x => k))
  (at level 100, m at next level, right associativity) : gen_scope.
Notation "m ;;; k" := (bind m (fun _ => k))
  (at level 100, right associativity) : gen_scope.

(** [[]]: allocate a fresh empty list and return its address. *)
Definition new_list : M nat :=
  fun st =>
    (Ok (length (lists st)),
     {| lists := (lists st ++ [[]])%list;
        generation_log := generation_log st |}).

(** [l.append(s)] on the list object at address [r]. *)
Definition list_append (r : nat) (s : string) : M unit :=
  fun st =>
    (Ok tt,
     {| lists := alter (fun l => (l ++ [s])%list) r (lists st);
        generation_log := generation_log st |}).

(** [self.generation_log.append(e)]. *)
Definition log_append (e : log_entry) : M unit :=
  fun st =>
    (Ok tt,
     {| lists := lists st;
        generation_log := (generation_log st ++ [e])%list |}).

(** ** ConstitutionalKernel.validate_domain_spec *)

(** The [for] loop over [required_fields]. *)
Fixpoint check_required (domain_spec : dict) (fields : list string) : result unit :=
  match fields with
  | [] => Ok tt
  | field :: rest =>
      if negb (dict_contains field domain_spec)
      then Raise (ConstitutionalViolation ("Missing required field: " +:+ field))
      else check_required domain_spec rest
  end.

Definition required_fields : list string := ["pattern"; "context"; "constraints"].

(** The method reads neither [self.rules] nor [self.kernel_path]. *)
Definition validate_domain_spec (domain_spec : dict) : result bool :=
  (_ <- check_required domain_spec required_fields ;;
   has_hw <- contains "hardware" (dict_get domain_spec "constraints" (VDict ∅)) ;;
   if negb has_hw
   then Raise (ConstitutionalViolation "Hardware constraints required (Article 0)")
   else Ok true)%res.

(** ** MetaForgeGenerator *)

(** The dataclass [ForgeGenerationParameters].  [memory_limit] is [None]
    until a branch sets it; [generation_warnings] is the address of the list
    object, which the log entry shares. *)
Record ForgeGenerationParameters : Type := {
  architecture : string;
  memory_limit : option string;
  enable_dain_generation : bool;
  constitutional_requirements : value;
  generation_warnings : nat
}.

Definition set_architecture (a : string) (p : ForgeGenerationParameters) :=
  {| architecture := a;
     memory_limit := memory_limit p;
     enable_dain_generation := enable_dain_generation p;
     constitutional_requirements := constitutional_requirements p;
     generation_warnings := generation_warnings p |}.

Definition set_memory_limit (m : string) (p : ForgeGenerationParameters) :=
  {| architecture := architecture p;
     memory_limit := Some m;
     enable_dain_generation := enable_dain_generation p;
     constitutional_requirements := constitutional_requirements p;
     generation_warnings := generation_warnings p |}.

Definition set_enable_dain_generation (b : bool) (p : ForgeGenerationParameters) :=
  {| architecture := architecture p;
     memory_limit := memory_limit p;
     enable_dain_generation := b;
     constitutional_requirements := constitutional_requirements p;
     generation_warnings := generation_warnings p |}.

(** The table inside [_calculate_memory_limit]. *)
Definition limits : gmap string string :=
  <["raspberry_pi" := "3G"]> (<["desktop" := "6G"]> ∅).

(** [limits.get(hardware_profile, '1G')]: a key that is not a string is
    never found, and one that cannot be hashed is refused. *)
Definition _calculate_memory_limit (hardware_profile : value) : result string :=
  match hardware_profile with
  | VStr s => Ok (default "1G" (limits !! s))
  | VList _ | VDict _ => Raise TypeError
  | _ => Ok "1G"
  end.

Definition hardware_warning : string :=
  "DAIN generation disabled: Requires dedicated hardware for constitutional compliance".

Definition capacity_warning : string :=
  "DAIN generation disabled: Requires advanced technical capacity".

(** [diagnostic_input['context']['domain']]. *)
Definition context_domain (diagnostic_input : dict) : result value :=
  (context <- dict_getitem diagnostic_input "context" ;;
   getitem context "domain")%res.

(** [diagnostic_input['constraints'][k]]. *)
Definition constraint (diagnostic_input : dict) (k : string) : result value :=
  (constraints <- dict_getitem diagnostic_input "constraints" ;;
   getitem constraints k)%res.

(** [diagnostic_input.get('customization_requests', {}).get('wants_ai_nodes', False)]. *)
Definition wants_ai_nodes (diagnostic_input : dict) : result value :=
  get (dict_get diagnostic_input "customization_requests" (VDict ∅))
      "wants_ai_nodes" (VBool false).

(** The [if]/[elif] chain of [process_diagnostic_input], acting on the
    freshly built [params]. *)
Definition select_architecture (hardware tech_capacity wants_ai : value)
    (params : ForgeGenerationParameters) : M ForgeGenerationParameters :=
  (if in_strs hardware ["raspberry_pi"; "desktop"] then
     let params := set_architecture "two_node" params in
     limit <- lift (_calculate_memory_limit hardware) ;;
     let params := set_memory_limit limit params in
     (if truthy wants_ai
      then list_append (generation_warnings params) hardware_warning
      else ret tt) ;;;
     ret params
   else if in_strs hardware ["dedicated"; "cloud"]
           && eq_str tech_capacity "advanced" && truthy wants_ai then
     let params := set_architecture "decoupled_dain" params in
     let params := set_enable_dain_generation true params in
     let params :=
       set_memory_limit (if eq_str hardware "dedicated" then "4G" else "8G") params in
     ret params
   else if in_strs hardware ["dedicated"; "cloud"] then
     let params := set_architecture "decoupled_non_dain" params in
     (if truthy wants_ai
      then list_append (generation_warnings params) capacity_warning
      else ret tt) ;;;
     ret params
   else ret params)%gen.

Definition process_diagnostic_input (diagnostic_input : dict)
    : M ForgeGenerationParameters :=
  (hardware <- lift (constraint diagnostic_input "hardware") ;;
   tech_capacity <- lift (constraint diagnostic_input "technical_capacity") ;;
   wants_ai <- lift (wants_ai_nodes diagnostic_input) ;;
   let requirements :=
     dict_get diagnostic_input "constitutional_requirements" (VList []) in
   warnings <- new_list ;;
   let params :=
     {| architecture := "two_node";
        memory_limit := None;
        enable_dain_generation := false;
        constitutional_requirements := requirements;
        generation_warnings := warnings |} in
   params <- select_architecture hardware tech_capacity wants_ai params ;;
   domain <- lift (context_domain diagnostic_input) ;;
   log_append
     {| log_domain := domain;
        log_architecture := architecture params;
        log_dain_enabled := enable_dain_generation params;
        log_warnings := generation_warnings params |} ;;;
   ret params)%gen.

(** The dictionary [forge_spec] returned by [generate_forge]. *)
Record forge_spec : Type := {
  fs_domain : value;
  fs_generated_date : string;
  fs_architecture : string;
  fs_constitutional_compliance : string;
  fs_files_generated : list string;
  fs_success_metrics : value;
  fs_warnings : nat
}.

Section Rendering.

(** How the interpreter prints a list or a dictionary inside an f-string. *)
Variable py_repr : value -> string.

Definition _generate_forge_files (domain_spec : dict)
    (params : ForgeGenerationParameters) : result (list string) :=
  (domain <- context_domain domain_spec ;;
   let domain_name := py_str py_repr domain in
   let files :=
     [ domain_name +:+ "/kernel.yml -> Constitutional kernel (git submodule)";
       domain_name +:+ "/domain_config.json -> Domain-specific configuration";
       domain_name +:+ "/docker-compose.yml -> Deployment configuration";
       domain_name +:+ "/constitutional_linter.py -> Rule enforcement system";
       domain_name +:+ "/README.md -> Usage instructions" ] in
   if String.eqb (architecture params) "decoupled_dain"
   then Ok (files ++ [ domain_name +:+ "/docker-compose.dain.yml -> AI node deployment";
                       domain_name +:+ "/dain_c_agent.py -> Constitutional audit AI" ])%list
   else Ok files)%res.

Definition generate_forge (domain_spec : dict) : M forge_spec :=
  (_ <- lift (context_domain domain_spec) ;;
   _ <- lift (validate_domain_spec domain_spec) ;;
   params <- process_diagnostic_input domain_spec ;;
   domain <- lift (context_domain domain_spec) ;;
   files <- lift (_generate_forge_files domain_spec params) ;;
   let forge :=
     {| fs_domain := domain;
        fs_generated_date := "2024-01-15";
        fs_architecture := architecture params;
        fs_constitutional_compliance := "verified";
        fs_files_generated := files;
        fs_success_metrics := dict_get domain_spec "success_metrics" (VList []);
        fs_warnings := generation_warnings params |} in
   _ <- lift (context_domain domain_spec) ;;
   ret forge)%gen.

End Rendering.

(** The demonstration input of the [__main__] block. *)
Definition skyrim_spec : dict :=
  <["pattern" := VDict (<["name" := VStr "compatibility_management"]> ∅)]>
  (<["context" := VDict (<["domain" := VStr "skyrim_modding_ecosystem"]> ∅)]>
  (<["constraints" := VDict (<["hardware" := VStr "desktop"]>
                            (<["technical_capacity" := VStr "basic"]> ∅))]>
  (<["customization_requests" := VDict (<["wants_ai_nodes" := VBool false]> ∅)]> ∅))).

(** A specification of the same shape for other inputs. *)
Definition example_spec (hardware tech_capacity : string) (wants_ai : bool) : dict :=
  <["pattern" := VDict (<["name" := VStr "compatibility_management"]> ∅)]>
  (<["context" := VDict (<["domain" := VStr "skyrim_modding_ecosystem"]> ∅)]>
  (<["constraints" := VDict (<["hardware" := VStr hardware]>
                            (<["technical_capacity" := VStr tech_capacity]> ∅))]>
  (<["customization_requests" := VDict (<["wants_ai_nodes" := VBool wants_ai]> ∅)]> ∅))).

(** [skyrim_spec] without its [context] entry. *)
Definition spec_without_context : dict := delete "context" skyrim_spec.

(** [skyrim_spec] with [technical_capacity] removed from [constraints]. *)
Definition spec_without_capacity : dict :=
  <["constraints" := VDict (<["hardware" := VStr "desktop"]> ∅)]> skyrim_spec.

(** ** The vocabulary of the specification *)

(** The four fields the specification requires, in the order it lists
    them. *)
Inductive field : Type := Pattern | Context | Constraints | Hardware.

Definition all_fields : list field := [Pattern; Context; Constraints; Hardware].

(** A field is present when the mapping has the key; [constraints.hardware]
    is present when [constraints] is a mapping that has the key. *)
Definition present (spec : dict) (f : field) : bool :=
  match f with
  | Pattern => dict_contains "pattern" spec
  | Context => dict_contains "context" spec
  | Constraints => dict_contains "constraints" spec
  | Hardware =>
      match spec !! "constraints" with
      | Some (VDict c) => dict_contains "hardware" c
      | _ => false
      end
  end.

(** The first field found missing when they are taken in order. *)
Definition first_missing (spec : dict) : option field :=
  List.find (fun f => negb (present spec f)) all_fields.

(** The text carried by the violation raised for each field. *)
Definition violation_message (f : field) : string :=
  match f with
  | Pattern => "Missing required field: pattern"
  | Context => "Missing required field: context"
  | Constraints => "Missing required field: constraints"
  | Hardware => "Hardware constraints required (Article 0)"
  end.

(** The shape the data model gives [constraints]: a mapping, when there. *)
Definition constraints_is_mapping (spec : dict) : Prop :=
  forall v, spec !! "constraints" = Some v -> exists c, v = VDict c.

(** The entry [process_diagnostic_input] writes for a domain and the
    parameters it returns. *)
Definition entry_of (domain : value) (params : ForgeGenerationParameters)
    : log_entry :=
  {| log_domain := domain;
     log_architecture := architecture params;
     log_dain_enabled := enable_dain_generation params;
     log_warnings := generation_warnings params |}.

(** A caller planning each specification of a list in turn, as long as no
    call raises. *)
Fixpoint plan_each (specs : list dict) : M (list ForgeGenerationParameters) :=
  match specs with
  | [] => ret []
  | spec :: rest =>
      (params <- process_diagnostic_input spec ;;
       others <- plan_each rest ;;
       ret (params :: others))%gen
  end.

(** The parameters as [process_diagnostic_input] first builds them in state
    [st], and the state once their empty warning list is allocated. *)
Definition initial_params (spec : dict) (st : state) : ForgeGenerationParameters :=
  {| architecture := "two_node";
     memory_limit := None;
     enable_dain_generation := false;
     constitutional_requirements :=
       dict_get spec "constitutional_requirements" (VList []);
     generation_warnings := length (lists st) |}.

Definition allocated (st : state) : state :=
  {| lists := (lists st ++ [[]])%list; generation_log := generation_log st |}.

(** The outcome of a call of [process_diagnostic_input], stated on the
    returned parameters and on the list object they refer to. *)
Definition returns (spec : dict) (st : state) (arch : string)
    (limit : option string) (ai : bool) (warnings : list string) : Prop :=
  exists p st',
    process_diagnostic_input spec st = (Ok p, st') /\
    architecture p = arch /\
    memory_limit p = limit /\
    enable_dain_generation p = ai /\
    lists st' !! generation_warnings p = Some warnings.

(** The warning texts as the specification words them. *)
Definition spec_hardware_warning : string :=
  "DAIN generation disabled: requires dedicated hardware".

Definition spec_capacity_warning : string :=
  "DAIN generation disabled: requires advanced technical capacity".

(** ** ConstitutionalKernel: loading the kernel *)

(** What opening [kernel_path] and [yaml.safe_load] give: an exception, kept
    as its text [str(e)], or the parsed document.  Documents outside
    [value] (floats, dates, mappings with keys that are not strings) are not
    covered. *)
Inductive read_outcome : Type :=
| ReadFails (msg : string)
| Parsed (doc : value).

(** [type(v).__name__]. *)
Definition type_name (v : value) : string :=
  match v with
  | VNone => "NoneType"
  | VBool _ => "bool"
  | VInt _ => "int"
  | VStr _ => "str"
  | VList _ => "list"
  | VDict _ => "dict"
  end.

(** The text of the [AttributeError] raised by [v.get] on a value without the
    method. *)
Definition no_get_message (v : value) : string :=
  "'" +:+ type_name v +:+ "' object has no attribute 'get'".

(** [_load_kernel] returns the kernel or raises a plain [Exception], which
    is no [ConstitutionalViolation]. *)
Inductive load_outcome : Type :=
| Loaded (kernel : value)
| LoadException (msg : string).

Definition load_failure (msg : string) : load_outcome :=
  LoadException ("Constitutional violation: Cannot load kernel - " +:+ msg).

(** The [try] body reads the version for its [print]; whatever it raises is
    caught and raised again as [Exception]. *)
Definition _load_kernel (files : string -> read_outcome) (kernel_path : string)
    : load_outcome :=
  match files kernel_path with
  | ReadFails msg => load_failure msg
  | Parsed kernel =>
      match get kernel "constitutional_version" (VStr "unknown") with
      | Ok _ => Loaded kernel
      | Raise _ => load_failure (no_get_message kernel)
      end
  end.

(** ** Vocabulary for the further properties *)

(** The reads of the specification made by [process_diagnostic_input], in
    the order in which a failure of one of them surfaces. *)
Definition plan_reads (spec : dict) : result unit :=
  (_ <- constraint spec "hardware" ;;
   _ <- constraint spec "technical_capacity" ;;
   _ <- wants_ai_nodes spec ;;
   _ <- context_domain spec ;;
   Ok tt)%res.

(** What [generate_forge] evaluates before it builds its result, in order. *)
Definition generate_steps (spec : dict) : result unit :=
  (_ <- context_domain spec ;;
   _ <- validate_domain_spec spec ;;
   plan_reads spec)%res.

(** The ways [select_architecture] can transform the parameters, with the
    warnings it appends. *)
Definition selection (f : ForgeGenerationParameters -> ForgeGenerationParameters)
    (ws : list string) : Prop :=
  (exists m, (m = "3G" \/ m = "6G") /\
     f = (fun p => set_memory_limit m (set_architecture "two_node" p)) /\
     (ws = [] \/ ws = [hardware_warning])) \/
  (exists m, (m = "4G" \/ m = "8G") /\
     f = (fun p => set_memory_limit m
                    (set_enable_dain_generation true
                       (set_architecture "decoupled_dain" p))) /\
     ws = []) \/
  (f = set_architecture "decoupled_non_dain" /\
     (ws = [] \/ ws = [capacity_warning])) \/
  (f = (fun p => p) /\ ws = []).

(** The descriptors of [_generate_forge_files] after the domain name. *)
Definition file_suffixes : list string :=
  [ "/kernel.yml -> Constitutional kernel (git submodule)";
    "/domain_config.json -> Domain-specific configuration";
    "/docker-compose.yml -> Deployment configuration";
    "/constitutional_linter.py -> Rule enforcement system";
    "/README.md -> Usage instructions";
    "/docker-compose.dain.yml -> AI node deployment";
    "/dain_c_agent.py -> Constitutional audit AI" ].

(** * Properties *)

(** ** Running the demonstration *)

Example skyrim_run :
  fst (generate_forge (fun _ => "") skyrim_spec init_state) =
  Ok {| fs_domain := VStr "skyrim_modding_ecosystem";
        fs_generated_date := "2024-01-15";
        fs_architecture := "two_node";
        fs_constitutional_compliance := "verified";
        fs_files_generated :=
          [ "skyrim_modding_ecosystem/kernel.yml -> Constitutional kernel (git submodule)";
            "skyrim_modding_ecosystem/domain_config.json -> Domain-specific configuration";
            "skyrim_modding_ecosystem/docker-compose.yml -> Deployment configuration";
            "skyrim_modding_ecosystem/constitutional_linter.py -> Rule enforcement system";
            "skyrim_modding_ecosystem/README.md -> Usage instructions" ];
        fs_success_metrics := VList [];
        fs_warnings := 0 |}.
Proof. vm_compute. reflexivity. Qed.

(** ** Laws of the monad *)

Lemma bind_lift_ok {A B : Type} (r : result A) (a : A) (k : A -> M B) (st : state) :
  r = Ok a -> bind (lift r) k st = k a st.
Proof. intros ->. reflexivity. Qed.

Lemma bind_lift_raise {A B : Type} (r : result A) (e : exn) (k : A -> M B) (st : state) :
  r = Raise e -> bind (lift r) k st = (Raise e, st).
Proof. intros ->. reflexivity. Qed.

Lemma bind_ok_inv {A B : Type} (m : M A) (k : A -> M B) (st st' : state) (b : B) :
  bind m k st = (Ok b, st') ->
  exists a st1, m st = (Ok a, st1) /\ k a st1 = (Ok b, st').
Proof.
  unfold bind. destruct (m st) as [[a|e] st1]; intros H.
  - exists a, st1. split; [reflexivity | exact H].
  - discriminate H.
Qed.

(** ** Reading the specification *)

Lemma constraint_lookup (spec c : dict) (k : string) :
  spec !! "constraints" = Some (VDict c) ->
  constraint spec k = dict_getitem c k.
Proof. intros H. unfold constraint, dict_getitem at 1. rewrite H. reflexivity. Qed.

Lemma context_domain_lookup (spec x : dict) :
  spec !! "context" = Some (VDict x) ->
  context_domain spec = dict_getitem x "domain".
Proof. intros H. unfold context_domain, dict_getitem at 1. rewrite H. reflexivity. Qed.

(** ** Validation *)

(** What [validate_domain_spec] returns, by cases on the four lookups. *)
Lemma validate_domain_spec_cases (spec : dict) :
  validate_domain_spec spec =
  match spec !! "pattern", spec !! "context", spec !! "constraints" with
  | None, _, _ => Raise (ConstitutionalViolation (violation_message Pattern))
  | Some _, None, _ => Raise (ConstitutionalViolation (violation_message Context))
  | Some _, Some _, None => Raise (ConstitutionalViolation (violation_message Constraints))
  | Some _, Some _, Some v =>
      match contains "hardware" v with
      | Ok true => Ok true
      | Ok false => Raise (ConstitutionalViolation (violation_message Hardware))
      | Raise e => Raise e
      end
  end.
Proof.
  unfold validate_domain_spec, required_fields, check_required, dict_contains, dict_get.
  destruct (spec !! "pattern") as [p|]; [|reflexivity].
  destruct (spec !! "context") as [x|]; [|reflexivity].
  destruct (spec !! "constraints") as [v|]; [|reflexivity].
  cbn. destruct (contains "hardware" v) as [[|]|e]; reflexivity.
Qed.

(** Validation raises nothing but [ConstitutionalViolation] when
    [constraints] is a mapping. *)
Lemma validate_domain_spec_mapping (spec : dict) :
  constraints_is_mapping spec ->
  validate_domain_spec spec =
  match first_missing spec with
  | None => Ok true
  | Some f => Raise (ConstitutionalViolation (violation_message f))
  end.
Proof.
  intros Hm. rewrite validate_domain_spec_cases.
  unfold first_missing, all_fields, present, dict_contains. cbn [List.find].
  destruct (spec !! "pattern") as [p|]; cbn [negb]; [|reflexivity].
  destruct (spec !! "context") as [x|]; cbn [negb]; [|reflexivity].
  destruct (spec !! "constraints") as [v|] eqn:Hc; cbn [negb]; [|reflexivity].
  destruct (Hm v Hc) as [c ->]. cbn [contains]. unfold dict_contains.
  destruct (c !! "hardware"); reflexivity.
Qed.

Lemma first_missing_none (spec : dict) :
  first_missing spec = None <-> forall f, present spec f = true.
Proof.
  unfold first_missing. split.
  - intros H f. pose proof (List.find_none _ _ H f) as Hf.
    assert (Hin : In f all_fields) by (destruct f; cbn; tauto).
    specialize (Hf Hin). cbn in Hf. apply negb_false_iff. exact Hf.
  - intros H. unfold all_fields. cbn [List.find].
    rewrite !H. reflexivity.
Qed.

(** C2: on a specification whose [constraints], when there, is a mapping,
    [validate_domain_spec] returns [True] if and only if [pattern],
    [context], [constraints] and [constraints.hardware] are all present;
    otherwise it raises one [ConstitutionalViolation], the one for the first
    missing field in the order pattern, context, constraints, hardware, and
    nothing about the fields after it. *)
Theorem validate_domain_spec_iff_present (spec : dict) :
  constraints_is_mapping spec ->
  (validate_domain_spec spec = Ok true <-> forall f, present spec f = true) /\
  (forall f, first_missing spec = Some f ->
     present spec f = false /\
     validate_domain_spec spec = Raise (ConstitutionalViolation (violation_message f))) /\
  (forall f, present spec f = false ->
     exists g, first_missing spec = Some g /\
       validate_domain_spec spec = Raise (ConstitutionalViolation (violation_message g))).
Proof.
  intros Hm. pose proof (validate_domain_spec_mapping spec Hm) as Hv.
  split; [|split].
  - rewrite <- first_missing_none. rewrite Hv.
    destruct (first_missing spec); split; intros H; try reflexivity; discriminate H.
  - intros f Hf. rewrite Hv, Hf. split; [|reflexivity].
    unfold first_missing in Hf. apply List.find_some in Hf as [_ Hf].
    apply negb_true_iff. exact Hf.
  - intros f Hf. rewrite Hv.
    destruct (first_missing spec) as [g|] eqn:Hg.
    + exists g. split; reflexivity.
    + rewrite first_missing_none in Hg. rewrite Hg in Hf. discriminate Hf.
Qed.

Lemma validate_domain_spec_iff_present_witness :
  constraints_is_mapping spec_without_capacity /\
  validate_domain_spec spec_without_capacity = Ok true.
Proof.
  assert (Hm : constraints_is_mapping spec_without_capacity).
  { intros v Hv. vm_compute in Hv. injection Hv as Hv. rewrite <- Hv.
    eexists. reflexivity. }
  split; [exact Hm|].
  apply (proj1 (validate_domain_spec_iff_present spec_without_capacity Hm)).
  intros f. destruct f; vm_compute; reflexivity.
Defined.

(** Why the shape of [constraints] matters: on a string the test is a
    substring test, and on [None] it is a type error. *)
Example validate_string_constraints :
  validate_domain_spec (<["constraints" := VStr "no hardware here"]> skyrim_spec)
  = Ok true.
Proof. vm_compute. reflexivity. Qed.

Example validate_none_constraints :
  validate_domain_spec (<["constraints" := VNone]> skyrim_spec) = Raise TypeError.
Proof. vm_compute. reflexivity. Qed.

(** ** The decision table *)

Lemma in_strs_true (v : value) (l : list string) :
  in_strs v l = true <-> exists s, v = VStr s /\ In s l.
Proof.
  unfold in_strs. rewrite existsb_exists. split.
  - intros (s & Hin & Heq). destruct v; try discriminate Heq.
    cbn in Heq. apply String.eqb_eq in Heq. subst. eexists; split; [reflexivity | exact Hin].
  - intros (s & -> & Hin). exists s. split; [exact Hin | apply String.eqb_refl].
Qed.

Lemma in_strs_false (v : value) (l : list string) :
  (forall s, In s l -> v <> VStr s) -> in_strs v l = false.
Proof.
  intros H. destruct (in_strs v l) eqn:E; [|reflexivity].
  apply in_strs_true in E as (s & -> & Hin). destruct (H s Hin eq_refl).
Qed.

Lemma lookup_fresh (l : list (list string)) (x : list string) :
  (l ++ [x])%list !! length l = Some x.
Proof. apply list_lookup_middle. reflexivity. Qed.

Lemma alter_fresh (f : list string -> list string) (l : list (list string))
    (x : list string) :
  alter f (length l) (l ++ [x])%list = (l ++ [f x])%list.
Proof.
  replace (length l) with (length l + 0) at 1 by lia.
  rewrite alter_app_r. reflexivity.
Qed.

(** *** The branches of [select_architecture] *)

Lemma select_architecture_two_node (hw : string) (t w : value)
    (p : ForgeGenerationParameters) (st : state) :
  hw = "raspberry_pi" \/ hw = "desktop" ->
  select_architecture (VStr hw) t w p st =
  (Ok (set_memory_limit (if String.eqb hw "raspberry_pi" then "3G" else "6G")
         (set_architecture "two_node" p)),
   if truthy w
   then {| lists := alter (fun l => (l ++ [hardware_warning])%list)
                      (generation_warnings p) (lists st);
           generation_log := generation_log st |}
   else st).
Proof.
  intros [-> | ->]; unfold select_architecture; cbn;
    destruct (truthy w); reflexivity.
Qed.

Lemma select_architecture_dain (hw : string) (t w : value)
    (p : ForgeGenerationParameters) (st : state) :
  hw = "dedicated" \/ hw = "cloud" ->
  eq_str t "advanced" = true ->
  truthy w = true ->
  select_architecture (VStr hw) t w p st =
  (Ok (set_memory_limit (if String.eqb hw "dedicated" then "4G" else "8G")
         (set_enable_dain_generation true (set_architecture "decoupled_dain" p))),
   st).
Proof.
  intros [-> | ->] Ht Hw; unfold select_architecture; cbn;
    rewrite Ht, Hw; reflexivity.
Qed.

Lemma select_architecture_non_dain (hw : string) (t w : value)
    (p : ForgeGenerationParameters) (st : state) :
  hw = "dedicated" \/ hw = "cloud" ->
  eq_str t "advanced" && truthy w = false ->
  select_architecture (VStr hw) t w p st =
  (Ok (set_architecture "decoupled_non_dain" p),
   if truthy w
   then {| lists := alter (fun l => (l ++ [capacity_warning])%list)
                      (generation_warnings p) (lists st);
           generation_log := generation_log st |}
   else st).
Proof.
  intros [-> | ->] Hc; unfold select_architecture; cbn;
    rewrite Hc; destruct (truthy w); reflexivity.
Qed.

Lemma select_architecture_default (h t w : value)
    (p : ForgeGenerationParameters) (st : state) :
  in_strs h ["raspberry_pi"; "desktop"] = false ->
  in_strs h ["dedicated"; "cloud"] = false ->
  select_architecture h t w p st = (Ok p, st).
Proof.
  intros H1 H2. unfold select_architecture. rewrite H1, H2. reflexivity.
Qed.

Section DecisionTable.

Variable spec : dict.
Variables hardware tech_capacity wants_ai domain : value.
Variable st : state.

(** The four reads of the specification succeed. *)
Hypothesis Hhardware : constraint spec "hardware" = Ok hardware.
Hypothesis Htech : constraint spec "technical_capacity" = Ok tech_capacity.
Hypothesis Hwants : wants_ai_nodes spec = Ok wants_ai.
Hypothesis Hdomain : context_domain spec = Ok domain.

Lemma process_diagnostic_input_select :
  process_diagnostic_input spec st =
  match select_architecture hardware tech_capacity wants_ai
        (initial_params spec st) (allocated st) with
  | (Ok p, st1) =>
      match context_domain spec with
      | Ok d =>
          (Ok p, {| lists := lists st1;
                    generation_log := (generation_log st1 ++ [entry_of d p])%list |})
      | Raise e => (Raise e, st1)
      end
  | (Raise e, st1) => (Raise e, st1)
  end.
Proof using Hhardware Htech Hwants.
  unfold process_diagnostic_input.
  rewrite (bind_lift_ok _ _ _ _ Hhardware), (bind_lift_ok _ _ _ _ Htech),
    (bind_lift_ok _ _ _ _ Hwants).
  unfold bind at 1. cbn [new_list]. fold (initial_params spec st) (allocated st).
  unfold bind at 1.
  destruct (select_architecture hardware tech_capacity wants_ai
              (initial_params spec st) (allocated st))
    as [[p|e] st1]; [|reflexivity].
  clear Hdomain. destruct (context_domain spec) as [d|e]; reflexivity.
Qed.

Lemma process_diagnostic_input_reads :
  process_diagnostic_input spec st =
  match select_architecture hardware tech_capacity wants_ai
        (initial_params spec st) (allocated st) with
  | (Ok p, st1) =>
      (Ok p, {| lists := lists st1;
                generation_log := (generation_log st1 ++ [entry_of domain p])%list |})
  | (Raise e, st1) => (Raise e, st1)
  end.
Proof using Hhardware Htech Hwants Hdomain.
  rewrite process_diagnostic_input_select, Hdomain. reflexivity.
Qed.

(** C4: with hardware [dedicated] or [cloud], technical capacity [advanced]
    and AI nodes wanted, the call returns architecture [decoupled_dain] with
    DAIN generation enabled, memory limit ["4G"] on [dedicated] and ["8G"] on
    [cloud], and no warning. *)
Theorem dain_branch (hw : string) :
  hardware = VStr hw ->
  hw = "dedicated" \/ hw = "cloud" ->
  tech_capacity = VStr "advanced" ->
  truthy wants_ai = true ->
  returns spec st "decoupled_dain"
    (Some (if String.eqb hw "dedicated" then "4G" else "8G")) true [].
Proof using Hhardware Htech Hwants Hdomain.
  intros Hh Hhw Ht Hw.
  unfold returns. rewrite process_diagnostic_input_reads. rewrite Hh, Ht.
  rewrite (select_architecture_dain hw (VStr "advanced") _ _ _ Hhw eq_refl Hw).
  do 2 eexists. split; [reflexivity|]. cbn.
  repeat split. apply lookup_fresh.
Qed.

(** C5, amended: with hardware [raspberry_pi] or [desktop] the call returns
    architecture [two_node] with DAIN generation disabled and the memory
    limit of [_calculate_memory_limit] (["3G"], ["6G"]; ["1G"] for any other
    key that can be hashed); the warnings are the single text
    [hardware_warning] when AI nodes are wanted and none otherwise. *)
Theorem two_node_branch :
  hardware = VStr "raspberry_pi" \/ hardware = VStr "desktop" ->
  (exists limit,
     _calculate_memory_limit hardware = Ok limit /\
     limit = (if eq_str hardware "raspberry_pi" then "3G" else "6G") /\
     returns spec st "two_node" (Some limit) false
       (if truthy wants_ai then [hardware_warning] else [])) /\
  (forall v, hashable v = true ->
     v <> VStr "raspberry_pi" -> v <> VStr "desktop" ->
     _calculate_memory_limit v = Ok "1G").
Proof using Hhardware Htech Hwants Hdomain.
  intros Hhw. split.
  - assert (exists hw, hardware = VStr hw /\ (hw = "raspberry_pi" \/ hw = "desktop"))
      as (hw & Hh & Hor)
      by (destruct Hhw as [-> | ->]; eexists; split; eauto).
    exists (if String.eqb hw "raspberry_pi" then "3G" else "6G").
    split; [rewrite Hh; destruct Hor as [-> | ->]; reflexivity|].
    split; [rewrite Hh; reflexivity|].
    unfold returns. rewrite process_diagnostic_input_reads. rewrite Hh.
    rewrite (select_architecture_two_node hw _ _ _ _ Hor).
    do 2 eexists. split; [reflexivity|]. cbn.
    repeat split. destruct (truthy wants_ai); cbn.
    + rewrite alter_fresh. apply lookup_fresh.
    + apply lookup_fresh.
  - intros v Hv H1 H2. destruct v as [| | |s| |]; try reflexivity; try discriminate Hv.
    cbn. unfold limits.
    rewrite lookup_insert_ne by congruence.
    rewrite lookup_insert_ne by congruence.
    reflexivity.
Qed.

(** C6, amended: with hardware [dedicated] or [cloud] and not both technical
    capacity [advanced] and AI nodes wanted, the call returns architecture
    [decoupled_non_dain], no memory limit and DAIN generation disabled; the
    warnings are the single text [capacity_warning] when AI nodes are wanted
    and none otherwise. *)
Theorem non_dain_branch :
  hardware = VStr "dedicated" \/ hardware = VStr "cloud" ->
  eq_str tech_capacity "advanced" && truthy wants_ai = false ->
  returns spec st "decoupled_non_dain" None false
    (if truthy wants_ai then [capacity_warning] else []).
Proof using Hhardware Htech Hwants Hdomain.
  intros Hhw Hc.
  assert (exists hw, hardware = VStr hw /\ (hw = "dedicated" \/ hw = "cloud"))
    as (hw & Hh & Hor)
    by (destruct Hhw as [-> | ->]; eexists; split; eauto).
  unfold returns. rewrite process_diagnostic_input_reads. rewrite Hh.
  rewrite (select_architecture_non_dain hw _ _ _ _ Hor Hc).
  do 2 eexists. split; [reflexivity|]. cbn.
  repeat split. destruct (truthy wants_ai); cbn.
  - rewrite alter_fresh. apply lookup_fresh.
  - apply lookup_fresh.
Qed.

(** C7: with a hardware value that is none of [raspberry_pi], [desktop],
    [dedicated], [cloud], the call raises nothing and returns the default:
    architecture [two_node], no memory limit, DAIN generation disabled and no
    warning, whatever the technical capacity and the AI request are. *)
Theorem unknown_hardware_default :
  hardware <> VStr "raspberry_pi" ->
  hardware <> VStr "desktop" ->
  hardware <> VStr "dedicated" ->
  hardware <> VStr "cloud" ->
  returns spec st "two_node" None false [].
Proof using Hhardware Htech Hwants Hdomain.
  intros H1 H2 H3 H4.
  unfold returns. rewrite process_diagnostic_input_reads.
  rewrite select_architecture_default.
  - do 2 eexists. split; [reflexivity|]. cbn.
    repeat split. apply lookup_fresh.
  - apply in_strs_false. intros s [<- | [<- | []]]; assumption.
  - apply in_strs_false. intros s [<- | [<- | []]]; assumption.
Qed.

End DecisionTable.

(** *** The branches on concrete inputs *)

Lemma dain_branch_witness :
  returns (example_spec "cloud" "advanced" true) init_state
    "decoupled_dain" (Some "8G") true [].
Proof.
  refine (dain_branch (example_spec "cloud" "advanced" true)
            (VStr "cloud") (VStr "advanced") (VBool true)
            (VStr "skyrim_modding_ecosystem") init_state _ _ _ _ "cloud" _ _ _ _);
    first [reflexivity | right; reflexivity].
Defined.

Lemma two_node_branch_witness :
  returns skyrim_spec init_state "two_node" (Some "6G") false [].
Proof.
  destruct (two_node_branch skyrim_spec (VStr "desktop") (VStr "basic")
              (VBool false) (VStr "skyrim_modding_ecosystem") init_state)
    as [(limit & _ & -> & H) _];
    first [reflexivity | right; reflexivity | exact H].
Defined.

Lemma non_dain_branch_witness :
  returns (example_spec "dedicated" "basic" true) init_state
    "decoupled_non_dain" None false [capacity_warning].
Proof.
  apply (non_dain_branch (example_spec "dedicated" "basic" true)
           (VStr "dedicated") (VStr "basic") (VBool true)
           (VStr "skyrim_modding_ecosystem") init_state);
    first [reflexivity | left; reflexivity].
Defined.

Lemma unknown_hardware_default_witness :
  returns (example_spec "mainframe" "advanced" true) init_state
    "two_node" None false [].
Proof.
  apply (unknown_hardware_default (example_spec "mainframe" "advanced" true)
           (VStr "mainframe") (VStr "advanced") (VBool true)
           (VStr "skyrim_modding_ecosystem") init_state);
    first [reflexivity | discriminate].
Defined.

(** C5 as worded: on [desktop] with AI nodes wanted, the one warning is not
    the text the specification gives. *)
Lemma two_node_warning_text_differs :
  exists p st',
    process_diagnostic_input (example_spec "desktop" "basic" true) init_state
      = (Ok p, st') /\
    architecture p = "two_node" /\
    lists st' !! generation_warnings p <> Some [spec_hardware_warning].
Proof.
  do 2 eexists. split; [vm_compute; reflexivity|].
  split; [reflexivity|]. vm_compute. discriminate.
Qed.

(** C6 as worded: on [dedicated] with basic capacity and AI nodes wanted, the
    one warning is not the text the specification gives. *)
Lemma non_dain_warning_text_differs :
  exists p st',
    process_diagnostic_input (example_spec "dedicated" "basic" true) init_state
      = (Ok p, st') /\
    architecture p = "decoupled_non_dain" /\
    lists st' !! generation_warnings p <> Some [spec_capacity_warning].
Proof.
  do 2 eexists. split; [vm_compute; reflexivity|].
  split; [reflexivity|]. vm_compute. discriminate.
Qed.

(** ** Every outcome of the decision table *)

(** [select_architecture] never raises; it touches no list object other than
    the warnings of the parameters it is given, and leaves the log alone. *)
Lemma select_architecture_outcome (h t w : value) (p : ForgeGenerationParameters)
    (st : state) :
  exists p' ws,
    select_architecture h t w p st =
      (Ok p', {| lists := alter (fun l => (l ++ ws)%list) (generation_warnings p) (lists st);
                 generation_log := generation_log st |}) /\
    generation_warnings p' = generation_warnings p /\
    (p' = p \/
     architecture p' = "two_node" /\ enable_dain_generation p' = enable_dain_generation p \/
     architecture p' = "decoupled_dain" /\ enable_dain_generation p' = true \/
     architecture p' = "decoupled_non_dain" /\
       enable_dain_generation p' = enable_dain_generation p).
Proof.
  assert (Hid : forall r : nat,
             alter (fun l : list string => (l ++ [])%list) r (lists st) = lists st).
  { intros r. apply list_alter_id. intros l. apply app_nil_r. }
  assert (Hst : forall r : nat,
             st = {| lists := alter (fun l : list string => (l ++ [])%list) r (lists st);
                     generation_log := generation_log st |}).
  { intros r. rewrite Hid. destruct st; reflexivity. }
  destruct (in_strs h ["raspberry_pi"; "desktop"]) eqn:E1.
  - apply in_strs_true in E1 as (hw & -> & Hin).
    assert (Hor : hw = "raspberry_pi" \/ hw = "desktop")
      by (destruct Hin as [<- | [<- | []]]; auto).
    rewrite (select_architecture_two_node hw t w p st Hor).
    eexists. exists (if truthy w then [hardware_warning] else []).
    split; [destruct (truthy w); [reflexivity | rewrite <- Hst; reflexivity]|].
    split; [reflexivity | right; left; split; reflexivity].
  - destruct (in_strs h ["dedicated"; "cloud"]) eqn:E2.
    + apply in_strs_true in E2 as (hw & -> & Hin).
      assert (Hor : hw = "dedicated" \/ hw = "cloud")
        by (destruct Hin as [<- | [<- | []]]; auto).
      destruct (eq_str t "advanced" && truthy w) eqn:E3.
      * apply andb_true_iff in E3 as [Ht Hw].
        rewrite (select_architecture_dain hw t w p st Hor Ht Hw).
        eexists. exists []. rewrite <- Hst.
        split; [reflexivity|]. split; [reflexivity|].
        right; right; left. split; reflexivity.
      * rewrite (select_architecture_non_dain hw t w p st Hor E3).
        eexists. exists (if truthy w then [capacity_warning] else []).
        split; [destruct (truthy w); [reflexivity | rewrite <- Hst; reflexivity]|].
        split; [reflexivity | right; right; right; split; reflexivity].
    + rewrite (select_architecture_default h t w p st E1 E2).
      exists p, []. rewrite <- Hst. split; [reflexivity|].
      split; [reflexivity | left; reflexivity].
Qed.

(** What a call of [process_diagnostic_input] has done when it returns. *)
Lemma process_diagnostic_input_ok (spec : dict) (st st' : state)
    (p : ForgeGenerationParameters) :
  process_diagnostic_input spec st = (Ok p, st') ->
  exists d ws,
    context_domain spec = Ok d /\
    generation_warnings p = length (lists st) /\
    lists st' = (lists st ++ [ws])%list /\
    generation_log st' = (generation_log st ++ [entry_of d p])%list /\
    (architecture p = "two_node" /\ enable_dain_generation p = false \/
     architecture p = "decoupled_dain" /\ enable_dain_generation p = true \/
     architecture p = "decoupled_non_dain" /\ enable_dain_generation p = false).
Proof.
  intros H.
  destruct (constraint spec "hardware") as [h|e] eqn:Hh;
    [|unfold process_diagnostic_input in H;
      rewrite (bind_lift_raise _ _ _ _ Hh) in H; discriminate H].
  destruct (constraint spec "technical_capacity") as [t|e] eqn:Ht;
    [|unfold process_diagnostic_input in H;
      rewrite (bind_lift_ok _ _ _ _ Hh), (bind_lift_raise _ _ _ _ Ht) in H;
      discriminate H].
  destruct (wants_ai_nodes spec) as [w|e] eqn:Hw;
    [|unfold process_diagnostic_input in H;
      rewrite (bind_lift_ok _ _ _ _ Hh), (bind_lift_ok _ _ _ _ Ht),
        (bind_lift_raise _ _ _ _ Hw) in H;
      discriminate H].
  rewrite (process_diagnostic_input_select spec h t w st Hh Ht Hw) in H.
  destruct (select_architecture_outcome h t w (initial_params spec st) (allocated st))
    as (p' & ws & Hsel & Hgw & Hcases).
  rewrite Hsel in H.
  destruct (context_domain spec) as [d|e]; [|discriminate H].
  injection H as -> <-. cbn.
  exists d, ([] ++ ws)%list. split; [reflexivity|].
  split; [exact Hgw|].
  split; [exact (alter_fresh (fun l => (l ++ ws)%list) (lists st) [])|].
  split; [reflexivity|].
  destruct Hcases as [-> | [[Ha He] | [[Ha He] | [Ha He]]]]; cbn in *; auto.
Qed.

(** A call that raises leaves the log as it was. *)
Lemma process_diagnostic_input_raise (spec : dict) (st st' : state) (e : exn) :
  process_diagnostic_input spec st = (Raise e, st') ->
  generation_log st' = generation_log st.
Proof.
  intros H.
  destruct (constraint spec "hardware") as [h|e1] eqn:Hh;
    [|unfold process_diagnostic_input in H;
      rewrite (bind_lift_raise _ _ _ _ Hh) in H; injection H as _ <-; reflexivity].
  destruct (constraint spec "technical_capacity") as [t|e1] eqn:Ht;
    [|unfold process_diagnostic_input in H;
      rewrite (bind_lift_ok _ _ _ _ Hh), (bind_lift_raise _ _ _ _ Ht) in H;
      injection H as _ <-; reflexivity].
  destruct (wants_ai_nodes spec) as [w|e1] eqn:Hw;
    [|unfold process_diagnostic_input in H;
      rewrite (bind_lift_ok _ _ _ _ Hh), (bind_lift_ok _ _ _ _ Ht),
        (bind_lift_raise _ _ _ _ Hw) in H;
      injection H as _ <-; reflexivity].
  rewrite (process_diagnostic_input_select spec h t w st Hh Ht Hw) in H.
  destruct (select_architecture_outcome h t w (initial_params spec st) (allocated st))
    as (p' & ws & Hsel & _).
  rewrite Hsel in H.
  destruct (context_domain spec) as [d|e1]; [discriminate H|].
  injection H as _ <-. reflexivity.
Qed.

(** C10: whenever [process_diagnostic_input] returns, DAIN generation is
    enabled in the returned parameters if and only if their architecture is
    [decoupled_dain]. *)
Theorem dain_enabled_iff_decoupled_dain (spec : dict) (st st' : state)
    (p : ForgeGenerationParameters) :
  process_diagnostic_input spec st = (Ok p, st') ->
  enable_dain_generation p = true <-> architecture p = "decoupled_dain".
Proof.
  intros H. apply process_diagnostic_input_ok in H as (d & ws & _ & _ & _ & _ & Hc).
  destruct Hc as [[Ha He] | [[Ha He] | [Ha He]]]; rewrite Ha, He;
    split; intros E; first [reflexivity | discriminate E].
Qed.

Lemma dain_enabled_iff_decoupled_dain_witness :
  exists p st',
    process_diagnostic_input (example_spec "dedicated" "advanced" true) init_state
      = (Ok p, st') /\
    (enable_dain_generation p = true <-> architecture p = "decoupled_dain").
Proof.
  pose (p := {| architecture := "decoupled_dain";
                memory_limit := Some "4G";
                enable_dain_generation := true;
                constitutional_requirements := VList [];
                generation_warnings := 0 |}).
  pose (st' := {| lists := [[]];
                  generation_log :=
                    [entry_of (VStr "skyrim_modding_ecosystem") p] |}).
  assert (H : process_diagnostic_input
                (example_spec "dedicated" "advanced" true) init_state
              = (Ok p, st')) by (vm_compute; reflexivity).
  exists p, st'. split; [exact H|].
  exact (dain_enabled_iff_decoupled_dain _ _ _ _ H).
Defined.

(** ** The generation log *)

(** List objects that exist before a call are the same after it. *)
Lemma lists_preserved (l : list (list string)) (ws : list string) (r : nat)
    (x : list string) :
  l !! r = Some x -> (l ++ [ws])%list !! r = Some x.
Proof. intros H. apply lookup_app_l_Some. exact H. Qed.

(** What [generate_forge] has done when it returns. *)
Lemma generate_forge_ok (py_repr : value -> string) (spec : dict)
    (st st' : state) (f : forge_spec) :
  generate_forge py_repr spec st = (Ok f, st') ->
  exists p d files,
    validate_domain_spec spec = Ok true /\
    process_diagnostic_input spec st = (Ok p, st') /\
    context_domain spec = Ok d /\
    _generate_forge_files py_repr spec p = Ok files /\
    f = {| fs_domain := d;
           fs_generated_date := "2024-01-15";
           fs_architecture := architecture p;
           fs_constitutional_compliance := "verified";
           fs_files_generated := files;
           fs_success_metrics := dict_get spec "success_metrics" (VList []);
           fs_warnings := generation_warnings p |}.
Proof.
  unfold generate_forge. intros H.
  destruct (context_domain spec) as [d|e] eqn:Hd; [|discriminate H].
  unfold bind at 1, lift at 1 in H.
  assert (Hv : validate_domain_spec spec = Ok true).
  { rewrite validate_domain_spec_cases in *.
    destruct (spec !! "pattern"), (spec !! "context"), (spec !! "constraints");
      try discriminate H.
    destruct (contains "hardware" _) as [[|]|]; first [reflexivity | discriminate H]. }
  rewrite Hv in H. unfold bind at 1, lift at 1 in H.
  unfold bind at 1 in H.
  destruct (process_diagnostic_input spec st) as [[p|e] st1]; [|discriminate H].
  unfold bind at 1, lift at 1 in H.
  unfold bind at 1, lift at 1 in H.
  destruct (_generate_forge_files py_repr spec p) as [files|e] eqn:Hf;
    [|discriminate H].
  unfold bind, lift, ret in H. injection H as <- <-.
  exists p, d, files. repeat split; assumption.
Qed.

Lemma plan_each_ok (specs : list dict) :
  forall (st st' : state) (ps : list ForgeGenerationParameters),
    plan_each specs st = (Ok ps, st') ->
    exists ds ls,
      Forall2 (fun spec d => context_domain spec = Ok d) specs ds /\
      length ps = length specs /\
      length ls = length specs /\
      lists st' = (lists st ++ ls)%list /\
      generation_log st' = (generation_log st ++ zip_with entry_of ds ps)%list.
Proof.
  induction specs as [|spec rest IH]; intros st st' ps H.
  - cbn in H. injection H as <- <-. exists [], [].
    rewrite !app_nil_r. repeat split. constructor.
  - cbn [plan_each] in H.
    apply bind_ok_inv in H as (p & st1 & Hp & H).
    apply bind_ok_inv in H as (others & st2 & Hrest & H).
    injection H as <- <-.
    apply process_diagnostic_input_ok in Hp as (d & ws & Hd & _ & Hl & Hg & _).
    apply IH in Hrest as (ds & ls & Hds & Hlen & Hlls & Hl2 & Hg2).
    exists (d :: ds), (ws :: ls). split; [constructor; assumption|].
    split; [cbn; congruence|]. split; [cbn; congruence|].
    rewrite Hl2, Hg2, Hl, Hg, <- !app_assoc. split; reflexivity.
Qed.

(** C9: a call of [process_diagnostic_input] that returns, and so a call of
    [generate_forge] that returns, appends exactly one entry to
    [generation_log], made of the domain, the architecture, the DAIN flag
    and the warnings of that call; the entries and the list objects that
    were there before are unchanged.  After [n] such calls on an empty log
    it holds the [n] entries in call order. *)
Theorem generation_log_append_only :
  (forall (spec : dict) (st st' : state) (p : ForgeGenerationParameters),
     process_diagnostic_input spec st = (Ok p, st') ->
     exists d,
       context_domain spec = Ok d /\
       generation_log st' = (generation_log st ++ [entry_of d p])%list /\
       forall r l, lists st !! r = Some l -> lists st' !! r = Some l) /\
  (forall (py_repr : value -> string) (spec : dict) (st st' : state) (f : forge_spec),
     generate_forge py_repr spec st = (Ok f, st') ->
     exists e,
       generation_log st' = (generation_log st ++ [e])%list /\
       log_domain e = fs_domain f /\
       log_architecture e = fs_architecture f /\
       log_warnings e = fs_warnings f /\
       forall r l, lists st !! r = Some l -> lists st' !! r = Some l) /\
  (forall (specs : list dict) (st st' : state) (ps : list ForgeGenerationParameters),
     plan_each specs st = (Ok ps, st') ->
     exists ds,
       Forall2 (fun spec d => context_domain spec = Ok d) specs ds /\
       length ps = length specs /\
       generation_log st' = (generation_log st ++ zip_with entry_of ds ps)%list /\
       length (generation_log st') = length (generation_log st) + length specs /\
       forall r l, lists st !! r = Some l -> lists st' !! r = Some l).
Proof.
  split; [|split].
  - intros spec st st' p H.
    apply process_diagnostic_input_ok in H as (d & ws & Hd & _ & Hl & Hg & _).
    exists d. split; [exact Hd|]. split; [exact Hg|].
    intros r l Hr. rewrite Hl. apply lists_preserved. exact Hr.
  - intros py_repr spec st st' f H.
    apply generate_forge_ok in H as (p & d & files & _ & Hp & Hd & _ & ->).
    apply process_diagnostic_input_ok in Hp as (d' & ws & Hd' & _ & Hl & Hg & _).
    exists (entry_of d' p). split; [exact Hg|].
    rewrite Hd in Hd'. injection Hd' as <-.
    repeat split. intros r l Hr. rewrite Hl. apply lists_preserved. exact Hr.
  - intros specs st st' ps H.
    apply plan_each_ok in H as (ds & ls & Hds & Hlen & _ & Hl & Hg).
    exists ds. split; [exact Hds|]. split; [exact Hlen|]. split; [exact Hg|].
    split.
    + rewrite Hg, length_app, length_zip_with.
      apply Forall2_length in Hds. lia.
    + intros r l Hr. rewrite Hl. apply lookup_app_l_Some. exact Hr.
Qed.

Lemma generation_log_append_only_witness :
  exists ps st',
    plan_each [skyrim_spec; example_spec "dedicated" "advanced" true] init_state
      = (Ok ps, st') /\
    length (generation_log st') = 2.
Proof.
  destruct (plan_each [skyrim_spec; example_spec "dedicated" "advanced" true]
              init_state) as [[ps|e] st'] eqn:H;
    [|vm_compute in H; discriminate H].
  exists ps, st'. split; [reflexivity|].
  destruct (proj2 (proj2 generation_log_append_only) _ _ _ _ H)
    as (ds & _ & _ & _ & Hlen & _).
  exact Hlen.
Defined.

(** ** The artifact list *)

Lemma prefix_append (s t : string) : String.prefix s (s +:+ t) = true.
Proof.
  induction s as [|a s IH]; [destruct t; reflexivity|].
  change (String.prefix (String a s) (String a (s +:+ t)) = true).
  unfold String.prefix; fold String.prefix.
  destruct (Ascii.ascii_dec a a) as [_|Hne]; [exact IH | destruct (Hne eq_refl)].
Qed.

(** C8: [_generate_forge_files] is a function of the domain name and of
    the architecture alone: two calls whose specifications give the same
    domain and whose parameters have the same architecture, whichever it is,
    return the same result, whatever else the specifications and the
    parameters hold.  When the domain can be read it returns five
    descriptors for an architecture other than [decoupled_dain] and seven
    for [decoupled_dain]: the rendered domain name followed by the first
    five fixed endings, then, for [decoupled_dain], by the two DAIN endings;
    so the first five are the same and every descriptor starts with the
    domain name. *)
Theorem forge_files_by_architecture (py_repr : value -> string) (spec : dict)
    (d : value) (p p_dain : ForgeGenerationParameters) :
  context_domain spec = Ok d ->
  architecture p <> "decoupled_dain" ->
  architecture p_dain = "decoupled_dain" ->
  (exists files extra,
     files = map (String.append (py_str py_repr d)) (take 5 file_suffixes) /\
     extra = map (String.append (py_str py_repr d)) (drop 5 file_suffixes) /\
     _generate_forge_files py_repr spec p = Ok files /\
     length files = 5 /\
     _generate_forge_files py_repr spec p_dain = Ok (files ++ extra)%list /\
     length (files ++ extra)%list = 7 /\
     take 5 (files ++ extra)%list = files /\
     Forall (fun f => String.prefix (py_str py_repr d) f = true)
       (files ++ extra)%list) /\
  (forall (spec1 spec2 : dict) (q1 q2 : ForgeGenerationParameters),
     context_domain spec1 = context_domain spec2 ->
     architecture q1 = architecture q2 ->
     _generate_forge_files py_repr spec1 q1 = _generate_forge_files py_repr spec2 q2).
Proof.
  intros Hd Hp Hdain. split.
  - unfold _generate_forge_files. rewrite Hd. cbn [bindR].
    rewrite Hdain. cbn [String.eqb Ascii.eqb Bool.eqb].
    destruct (String.eqb (architecture p) "decoupled_dain") eqn:E;
      [apply String.eqb_eq in E; destruct (Hp E)|].
    do 2 eexists. split; [reflexivity|]. split; [reflexivity|].
    split; [reflexivity|]. split; [reflexivity|].
    split; [reflexivity|]. split; [reflexivity|]. split; [reflexivity|].
    repeat (apply Forall_cons; split; [apply prefix_append|]). apply Forall_nil; exact I.
  - intros spec1 spec2 q1 q2 Hs Ha. unfold _generate_forge_files.
    rewrite Hs, Ha. reflexivity.
Qed.

Lemma forge_files_by_architecture_witness :
  (exists files extra,
     _generate_forge_files (fun _ => "") skyrim_spec
       (initial_params skyrim_spec init_state) = Ok files /\
     length files = 5 /\
     _generate_forge_files (fun _ => "") skyrim_spec
       (set_architecture "decoupled_dain" (initial_params skyrim_spec init_state))
       = Ok (files ++ extra)%list /\
     extra =
       [ "skyrim_modding_ecosystem/docker-compose.dain.yml -> AI node deployment";
         "skyrim_modding_ecosystem/dain_c_agent.py -> Constitutional audit AI" ]) /\
  _generate_forge_files (fun _ => "") (delete "pattern" skyrim_spec)
    (set_memory_limit "4G"
       (set_architecture "decoupled_dain" (initial_params skyrim_spec init_state)))
  = _generate_forge_files (fun _ => "") skyrim_spec
      (set_architecture "decoupled_dain" (initial_params skyrim_spec init_state)).
Proof.
  destruct (forge_files_by_architecture (fun _ => "") skyrim_spec
              (VStr "skyrim_modding_ecosystem")
              (initial_params skyrim_spec init_state)
              (set_architecture "decoupled_dain" (initial_params skyrim_spec init_state)))
    as [(files & extra & _ & He & H1 & H2 & H3 & _) Hpure];
    first [reflexivity | discriminate | idtac].
  split.
  - exists files, extra. repeat split; assumption.
  - apply Hpure; reflexivity.
Defined.

(** ** Errors of [generate_forge] *)

(** When the domain can be read, whatever validation raises reaches the
    caller of [generate_forge], and the state is untouched. *)
Lemma generate_forge_propagates (py_repr : value -> string) (spec : dict)
    (st : state) (d : value) (e : exn) :
  context_domain spec = Ok d ->
  validate_domain_spec spec = Raise e ->
  generate_forge py_repr spec st = (Raise e, st).
Proof.
  intros Hd Hv. unfold generate_forge.
  rewrite (bind_lift_ok _ _ _ _ Hd), (bind_lift_raise _ _ _ _ Hv). reflexivity.
Qed.

(** C1 fails on the code: [spec_without_context] lacks the required field
    [context], validation alone reports it as a [ConstitutionalViolation],
    and [generate_forge] raises [KeyError] before validation runs. *)
Theorem generate_forge_missing_context :
  present spec_without_context Context = false /\
  validate_domain_spec spec_without_context =
    Raise (ConstitutionalViolation "Missing required field: context") /\
  forall (py_repr : value -> string) (st : state),
    generate_forge py_repr spec_without_context st = (Raise (KeyError "context"), st).
Proof.
  split; [reflexivity|]. split; [reflexivity|].
  intros py_repr st. unfold generate_forge.
  apply bind_lift_raise. reflexivity.
Qed.

(** C3: a specification that passes validation and whose [constraints]
    mapping has no [technical_capacity] makes [process_diagnostic_input]
    raise [KeyError] on that key, before anything is allocated or logged,
    whatever the hardware; [generate_forge], on a [context] mapping, raises
    a [KeyError] as well: the same one when the domain can be read. *)
Theorem missing_capacity_key_error (py_repr : value -> string) (spec c : dict)
    (st : state) :
  spec !! "constraints" = Some (VDict c) ->
  c !! "technical_capacity" = None ->
  validate_domain_spec spec = Ok true ->
  process_diagnostic_input spec st = (Raise (KeyError "technical_capacity"), st) /\
  forall x : dict,
    spec !! "context" = Some (VDict x) ->
    generate_forge py_repr spec st =
      (Raise (KeyError (if dict_contains "domain" x
                        then "technical_capacity" else "domain")), st).
Proof.
  intros Hc Ht Hv.
  assert (Hh : exists h, constraint spec "hardware" = Ok h).
  { rewrite validate_domain_spec_cases in Hv.
    rewrite (constraint_lookup spec c _ Hc). unfold dict_getitem.
    destruct (spec !! "pattern"), (spec !! "context"); try discriminate Hv.
    rewrite Hc in Hv. cbn in Hv. unfold dict_contains in Hv.
    destruct (c !! "hardware") as [h|]; [eexists; reflexivity | discriminate Hv]. }
  destruct Hh as [h Hh].
  assert (Hcap : constraint spec "technical_capacity" = Raise (KeyError "technical_capacity")).
  { rewrite (constraint_lookup spec c _ Hc). unfold dict_getitem. rewrite Ht. reflexivity. }
  assert (Hplan : process_diagnostic_input spec st
                  = (Raise (KeyError "technical_capacity"), st)).
  { unfold process_diagnostic_input.
    rewrite (bind_lift_ok _ _ _ _ Hh). apply bind_lift_raise. exact Hcap. }
  split; [exact Hplan|].
  intros x Hx. unfold generate_forge.
  pose proof (context_domain_lookup spec x Hx) as Hd.
  unfold dict_getitem, dict_contains in *.
  destruct (x !! "domain") as [d|].
  - rewrite (bind_lift_ok _ _ _ _ Hd), (bind_lift_ok _ _ _ _ Hv).
    unfold bind at 1. rewrite Hplan. reflexivity.
  - apply bind_lift_raise. exact Hd.
Qed.

Lemma missing_capacity_key_error_witness :
  process_diagnostic_input spec_without_capacity init_state
    = (Raise (KeyError "technical_capacity"), init_state) /\
  generate_forge (fun _ => "") spec_without_capacity init_state
    = (Raise (KeyError "technical_capacity"), init_state).
Proof.
  destruct (missing_capacity_key_error (fun _ => "") spec_without_capacity
              (<["hardware" := VStr "desktop"]> ∅) init_state)
    as [Hp Hg]; try reflexivity.
  split; [exact Hp|].
  exact (Hg (<["domain" := VStr "skyrim_modding_ecosystem"]> ∅) eq_refl).
Defined.

(** * Further properties *)

(** ** Every run of the decision table, as a transformation *)

Lemma state_eta (st : state) :
  {| lists := lists st; generation_log := generation_log st |} = st.
Proof. destruct st; reflexivity. Qed.

Lemma alter_nothing (r : nat) (l : list (list string)) :
  alter (fun x : list string => (x ++ [])%list) r l = l.
Proof. apply list_alter_id. intros x. apply app_nil_r. Qed.

(** [select_architecture] applies one of four transformations, chosen by
    the three values alone, and appends at most one warning. *)
Lemma select_architecture_rows (h t w : value) :
  exists f ws,
    selection f ws /\
    (truthy w = false ->
       ws = [] /\ forall p, enable_dain_generation (f p) = enable_dain_generation p) /\
    forall (p : ForgeGenerationParameters) (st : state),
      generation_warnings (f p) = generation_warnings p /\
      constitutional_requirements (f p) = constitutional_requirements p /\
      select_architecture h t w p st =
        (Ok (f p),
         {| lists := alter (fun l => (l ++ ws)%list) (generation_warnings p) (lists st);
            generation_log := generation_log st |}).
Proof.
  destruct (in_strs h ["raspberry_pi"; "desktop"]) eqn:E1.
  - apply in_strs_true in E1 as (hw & -> & Hin).
    assert (Hor : hw = "raspberry_pi" \/ hw = "desktop")
      by (destruct Hin as [<- | [<- | []]]; auto).
    exists (fun p => set_memory_limit (if String.eqb hw "raspberry_pi" then "3G" else "6G")
                       (set_architecture "two_node" p)).
    exists (if truthy w then [hardware_warning] else []).
    split; [|split].
    + left. eexists. split; [|split; [reflexivity|]].
      * destruct Hor as [-> | ->]; [left | right]; reflexivity.
      * destruct (truthy w); [right | left]; reflexivity.
    + intros ->. split; [reflexivity | intros p; reflexivity].
    + intros p st. split; [reflexivity|]. split; [reflexivity|].
      rewrite (select_architecture_two_node hw t w p st Hor).
      destruct (truthy w); [reflexivity|].
      rewrite alter_nothing, state_eta. reflexivity.
  - destruct (in_strs h ["dedicated"; "cloud"]) eqn:E2.
    + apply in_strs_true in E2 as (hw & -> & Hin).
      assert (Hor : hw = "dedicated" \/ hw = "cloud")
        by (destruct Hin as [<- | [<- | []]]; auto).
      destruct (eq_str t "advanced" && truthy w) eqn:E3.
      * apply andb_true_iff in E3 as [Ht Hw].
        exists (fun p => set_memory_limit (if String.eqb hw "dedicated" then "4G" else "8G")
                           (set_enable_dain_generation true
                              (set_architecture "decoupled_dain" p))).
        exists []. split; [|split].
        -- right; left. eexists. split; [|split; reflexivity].
           destruct Hor as [-> | ->]; [left | right]; reflexivity.
        -- intros Hf. rewrite Hf in Hw. discriminate Hw.
        -- intros p st. split; [reflexivity|]. split; [reflexivity|].
           rewrite (select_architecture_dain hw t w p st Hor Ht Hw).
           rewrite alter_nothing, state_eta. reflexivity.
      * exists (set_architecture "decoupled_non_dain").
        exists (if truthy w then [capacity_warning] else []).
        split; [|split].
        -- right; right; left. split; [reflexivity|].
           destruct (truthy w); [right | left]; reflexivity.
        -- intros ->. split; [reflexivity | intros p; reflexivity].
        -- intros p st. split; [reflexivity|]. split; [reflexivity|].
           rewrite (select_architecture_non_dain hw t w p st Hor E3).
           destruct (truthy w); [reflexivity|].
           rewrite alter_nothing, state_eta. reflexivity.
    + exists (fun p => p), []. split; [|split].
      * right; right; right. split; reflexivity.
      * intros _. split; [reflexivity | intros p; reflexivity].
      * intros p st. split; [reflexivity|]. split; [reflexivity|].
        rewrite (select_architecture_default h t w p st E1 E2).
        rewrite alter_nothing, state_eta. reflexivity.
Qed.

(** When its reads succeed, [process_diagnostic_input] returns in every
    state, with the same transformation and the same warnings. *)
Lemma process_diagnostic_input_rows (spec : dict) (h t w d : value) :
  constraint spec "hardware" = Ok h ->
  constraint spec "technical_capacity" = Ok t ->
  wants_ai_nodes spec = Ok w ->
  context_domain spec = Ok d ->
  exists f ws,
    selection f ws /\
    (truthy w = false ->
       ws = [] /\ forall p, enable_dain_generation (f p) = enable_dain_generation p) /\
    forall st : state,
      generation_warnings (f (initial_params spec st)) = length (lists st) /\
      constitutional_requirements (f (initial_params spec st)) =
        dict_get spec "constitutional_requirements" (VList []) /\
      process_diagnostic_input spec st =
        (Ok (f (initial_params spec st)),
         {| lists := (lists st ++ [ws])%list;
            generation_log :=
              (generation_log st ++ [entry_of d (f (initial_params spec st))])%list |}).
Proof.
  intros Hh Ht Hw Hd.
  destruct (select_architecture_rows h t w) as (f & ws & Hsel & Hfalse & Hrun).
  exists f, ws. split; [exact Hsel|]. split; [exact Hfalse|].
  intros st.
  destruct (Hrun (initial_params spec st) (allocated st)) as (Hgw & Hreq & Hs).
  split; [exact Hgw|]. split; [exact Hreq|].
  rewrite (process_diagnostic_input_reads spec h t w d st Hh Ht Hw Hd), Hs.
  cbn [lists generation_log allocated initial_params generation_warnings].
  rewrite (alter_fresh (fun l => (l ++ ws)%list) (lists st) []).
  reflexivity.
Qed.

(** The reads behind a successful [plan_reads]. *)
Lemma plan_reads_ok (spec : dict) :
  plan_reads spec = Ok tt ->
  exists h t w d,
    constraint spec "hardware" = Ok h /\
    constraint spec "technical_capacity" = Ok t /\
    wants_ai_nodes spec = Ok w /\
    context_domain spec = Ok d.
Proof.
  unfold plan_reads. intros H.
  destruct (constraint spec "hardware") as [h|e]; [|discriminate H].
  destruct (constraint spec "technical_capacity") as [t|e]; [|discriminate H].
  destruct (wants_ai_nodes spec) as [w|e]; [|discriminate H].
  destruct (context_domain spec) as [d|e]; [|discriminate H].
  exists h, t, w, d. repeat split.
Qed.

(** A call that returns had its reads succeed. *)
Lemma process_diagnostic_input_reads_ok (spec : dict) (st st' : state)
    (p : ForgeGenerationParameters) :
  process_diagnostic_input spec st = (Ok p, st') -> plan_reads spec = Ok tt.
Proof.
  intros H. unfold plan_reads.
  destruct (constraint spec "hardware") as [h|e] eqn:Hh;
    [|unfold process_diagnostic_input in H;
      rewrite (bind_lift_raise _ _ _ _ Hh) in H; discriminate H].
  destruct (constraint spec "technical_capacity") as [t|e] eqn:Ht;
    [|unfold process_diagnostic_input in H;
      rewrite (bind_lift_ok _ _ _ _ Hh), (bind_lift_raise _ _ _ _ Ht) in H;
      discriminate H].
  destruct (wants_ai_nodes spec) as [w|e] eqn:Hw;
    [|unfold process_diagnostic_input in H;
      rewrite (bind_lift_ok _ _ _ _ Hh), (bind_lift_ok _ _ _ _ Ht),
        (bind_lift_raise _ _ _ _ Hw) in H;
      discriminate H].
  apply process_diagnostic_input_ok in H as (d & _ & Hd & _).
  rewrite Hd. reflexivity.
Qed.

(** A failing read surfaces as the exception of the call, and nothing is
    logged. *)
Lemma process_diagnostic_input_reads_raise (spec : dict) (e : exn) (st : state) :
  plan_reads spec = Raise e ->
  exists st',
    process_diagnostic_input spec st = (Raise e, st') /\
    generation_log st' = generation_log st.
Proof.
  unfold plan_reads. intros H.
  destruct (constraint spec "hardware") as [h|e1] eqn:Hh.
  2:{ injection H as <-. exists st. split; [|reflexivity].
      unfold process_diagnostic_input. apply bind_lift_raise. exact Hh. }
  destruct (constraint spec "technical_capacity") as [t|e1] eqn:Ht.
  2:{ injection H as <-. exists st. split; [|reflexivity].
      unfold process_diagnostic_input. rewrite (bind_lift_ok _ _ _ _ Hh).
      apply bind_lift_raise. exact Ht. }
  destruct (wants_ai_nodes spec) as [w|e1] eqn:Hw.
  2:{ injection H as <-. exists st. split; [|reflexivity].
      unfold process_diagnostic_input.
      rewrite (bind_lift_ok _ _ _ _ Hh), (bind_lift_ok _ _ _ _ Ht).
      apply bind_lift_raise. exact Hw. }
  destruct (context_domain spec) as [d|e1] eqn:Hd; [discriminate H|].
  injection H as <-.
  destruct (select_architecture_rows h t w) as (f & ws & _ & _ & Hrun).
  destruct (Hrun (initial_params spec st) (allocated st)) as (_ & _ & Hs).
  eexists. split.
  - rewrite (process_diagnostic_input_select spec h t w st Hh Ht Hw), Hs, Hd.
    reflexivity.
  - reflexivity.
Qed.

Lemma plan_reads_raise_kind (spec : dict) (e : exn) :
  plan_reads spec = Raise e ->
  In e [KeyError "constraints"; KeyError "hardware"; KeyError "technical_capacity";
        KeyError "context"; KeyError "domain"; TypeError; AttributeError].
Proof.
  unfold plan_reads, constraint, wants_ai_nodes, context_domain,
    dict_getitem, dict_get, getitem, get, dict_getitem.
  intros H.
  destruct (spec !! "constraints") as [[| | | | |c]|]; cbn in H;
    try (injection H as <-; cbn; tauto).
  destruct (c !! "hardware"); cbn in H; [|injection H as <-; cbn; tauto].
  destruct (c !! "technical_capacity"); cbn in H; [|injection H as <-; cbn; tauto].
  destruct (spec !! "customization_requests") as [[| | | | |r]|]; cbn in H;
    try (injection H as <-; cbn; tauto).
  - destruct (spec !! "context") as [[| | | | |x]|]; cbn in H;
      try (injection H as <-; cbn; tauto).
    destruct (x !! "domain"); cbn in H; [discriminate H | injection H as <-; cbn; tauto].
  - destruct (spec !! "context") as [[| | | | |x]|]; cbn in H;
      try (injection H as <-; cbn; tauto).
    destruct (x !! "domain"); cbn in H; [discriminate H | injection H as <-; cbn; tauto].
Qed.

(** ** Outcomes of [process_diagnostic_input] *)

(** X1: [process_diagnostic_input] returns exactly when its four reads of
    the specification succeed (hardware, technical capacity, the AI request,
    the domain); otherwise it raises the exception of the first read that
    fails, in that order, and the log is left as it was. *)
Theorem process_diagnostic_input_outcome (spec : dict) (st : state) :
  match plan_reads spec with
  | Ok _ => exists p st', process_diagnostic_input spec st = (Ok p, st')
  | Raise e =>
      exists st',
        process_diagnostic_input spec st = (Raise e, st') /\
        generation_log st' = generation_log st
  end.
Proof.
  destruct (plan_reads spec) as [[]|e] eqn:H.
  - apply plan_reads_ok in H as (h & t & w & d & Hh & Ht & Hw & Hd).
    destruct (process_diagnostic_input_rows spec h t w d Hh Ht Hw Hd)
      as (f & ws & _ & _ & Hrun).
    destruct (Hrun st) as (_ & _ & Hp). do 2 eexists. exact Hp.
  - apply process_diagnostic_input_reads_raise. exact H.
Qed.

(** X2: whatever [process_diagnostic_input] raises is a [KeyError] on one
    of the keys it reads, a [TypeError] or an [AttributeError]; it is never
    a [ConstitutionalViolation]. *)
Theorem process_diagnostic_input_exceptions (spec : dict) (st st' : state) (e : exn) :
  process_diagnostic_input spec st = (Raise e, st') ->
  In e [KeyError "constraints"; KeyError "hardware"; KeyError "technical_capacity";
        KeyError "context"; KeyError "domain"; TypeError; AttributeError] /\
  forall msg, e <> ConstitutionalViolation msg.
Proof.
  intros H.
  assert (Hr : plan_reads spec = Raise e).
  { destruct (plan_reads spec) as [[]|e1] eqn:Hr.
    - apply plan_reads_ok in Hr as (h & t & w & d & Hh & Ht & Hw & Hd).
      destruct (process_diagnostic_input_rows spec h t w d Hh Ht Hw Hd)
        as (f & ws & _ & _ & Hrun).
      destruct (Hrun st) as (_ & _ & Hp). rewrite Hp in H. discriminate H.
    - destruct (process_diagnostic_input_reads_raise spec e1 st Hr) as (st1 & Hp & _).
      rewrite Hp in H. injection H as -> _. reflexivity. }
  apply plan_reads_raise_kind in Hr. split; [exact Hr|].
  intros msg ->. cbn in Hr.
  repeat (destruct Hr as [Hr | Hr]; [discriminate Hr|]). exact Hr.
Qed.

Lemma process_diagnostic_input_exceptions_witness :
  process_diagnostic_input spec_without_context init_state
    = (Raise (KeyError "context"), allocated init_state) /\
  forall msg, KeyError "context" <> ConstitutionalViolation msg.
Proof.
  assert (H : process_diagnostic_input spec_without_context init_state
              = (Raise (KeyError "context"), allocated init_state))
    by (vm_compute; reflexivity).
  split; [exact H|].
  exact (proj2 (process_diagnostic_input_exceptions _ _ _ _ H)).
Defined.

(** ** Outcomes of [generate_forge] *)

(** X3: [generate_forge] returns exactly when the domain can be read,
    validation passes and the reads of [process_diagnostic_input] succeed;
    otherwise it raises the first exception met in that order (so an
    unreadable domain wins over any validation error), and the log is left
    as it was. *)
Theorem generate_forge_outcome (py_repr : value -> string) (spec : dict)
    (st : state) :
  match generate_steps spec with
  | Ok _ => exists f st', generate_forge py_repr spec st = (Ok f, st')
  | Raise e =>
      exists st',
        generate_forge py_repr spec st = (Raise e, st') /\
        generation_log st' = generation_log st
  end.
Proof.
  unfold generate_steps.
  destruct (context_domain spec) as [d|e] eqn:Hd; cbn [bindR].
  2:{ exists st. split; [|reflexivity].
      unfold generate_forge. apply bind_lift_raise. exact Hd. }
  destruct (validate_domain_spec spec) as [b|e] eqn:Hv; cbn [bindR].
  2:{ exists st. split; [|reflexivity].
      unfold generate_forge. rewrite (bind_lift_ok _ _ _ _ Hd).
      apply bind_lift_raise. exact Hv. }
  destruct (plan_reads spec) as [[]|e] eqn:Hr.
  - apply plan_reads_ok in Hr as (h & t & w & d' & Hh & Ht & Hw & Hd').
    destruct (process_diagnostic_input_rows spec h t w d' Hh Ht Hw Hd')
      as (f & ws & _ & _ & Hrun).
    destruct (Hrun st) as (_ & _ & Hp).
    unfold generate_forge.
    rewrite (bind_lift_ok _ _ _ _ Hd), (bind_lift_ok _ _ _ _ Hv).
    unfold bind at 1. rewrite Hp.
    rewrite (bind_lift_ok _ _ _ _ Hd).
    unfold _generate_forge_files. rewrite Hd. cbn [bindR].
    destruct (String.eqb _ "decoupled_dain");
      unfold bind, lift, ret; do 2 eexists; reflexivity.
  - destruct (process_diagnostic_input_reads_raise spec e st Hr) as (st1 & Hp & Hlog).
    exists st1. split; [|exact Hlog].
    unfold generate_forge.
    rewrite (bind_lift_ok _ _ _ _ Hd), (bind_lift_ok _ _ _ _ Hv).
    unfold bind at 1. rewrite Hp. reflexivity.
Qed.

(** ** What a returned plan looks like *)

Lemma process_diagnostic_input_shape (spec : dict) (st st' : state)
    (p : ForgeGenerationParameters) :
  process_diagnostic_input spec st = (Ok p, st') ->
  exists f ws d w,
    wants_ai_nodes spec = Ok w /\
    context_domain spec = Ok d /\
    selection f ws /\
    (truthy w = false ->
       ws = [] /\ forall q, enable_dain_generation (f q) = enable_dain_generation q) /\
    p = f (initial_params spec st) /\
    lists st' = (lists st ++ [ws])%list /\
    forall st2 : state,
      generation_warnings (f (initial_params spec st2)) = length (lists st2) /\
      constitutional_requirements (f (initial_params spec st2)) =
        dict_get spec "constitutional_requirements" (VList []) /\
      process_diagnostic_input spec st2 =
        (Ok (f (initial_params spec st2)),
         {| lists := (lists st2 ++ [ws])%list;
            generation_log :=
              (generation_log st2 ++ [entry_of d (f (initial_params spec st2))])%list |}).
Proof.
  intros H. pose proof (process_diagnostic_input_reads_ok _ _ _ _ H) as Hr.
  apply plan_reads_ok in Hr as (h & t & w & d & Hh & Ht & Hw & Hd).
  destruct (process_diagnostic_input_rows spec h t w d Hh Ht Hw Hd)
    as (f & ws & Hsel & Hfalse & Hrun).
  exists f, ws, d, w. split; [exact Hw|]. split; [exact Hd|].
  split; [exact Hsel|]. split; [exact Hfalse|].
  destruct (Hrun st) as (_ & _ & Hp). rewrite Hp in H. injection H as <- <-.
  split; [reflexivity|]. split; [reflexivity|]. exact Hrun.
Qed.

Ltac selection_cases Hsel :=
  destruct Hsel as [(m & Hm & -> & Hws) | [(m & Hm & -> & Hws) | [(-> & Hws) | (-> & Hws)]]].

(** X4: when the specification asks for no AI nodes, be it by a false value
    or by leaving [customization_requests] or [wants_ai_nodes] out, a
    returned plan never enables DAIN generation, is never [decoupled_dain]
    and carries no warning. *)
Theorem no_ai_request_no_dain (spec : dict) (st st' : state)
    (p : ForgeGenerationParameters) :
  spec !! "customization_requests" = None \/
  (exists c, spec !! "customization_requests" = Some (VDict c) /\
             c !! "wants_ai_nodes" = None) \/
  (exists w, wants_ai_nodes spec = Ok w /\ truthy w = false) ->
  process_diagnostic_input spec st = (Ok p, st') ->
  enable_dain_generation p = false /\
  architecture p <> "decoupled_dain" /\
  lists st' !! generation_warnings p = Some [].
Proof.
  intros Hno H.
  assert (Hw : exists w, wants_ai_nodes spec = Ok w /\ truthy w = false).
  { destruct Hno as [Hn | [(c & Hc & Hn) | Hw]]; [| |exact Hw].
    - exists (VBool false). unfold wants_ai_nodes, dict_get. rewrite Hn.
      split; reflexivity.
    - exists (VBool false). unfold wants_ai_nodes, dict_get, get, dict_get.
      rewrite Hc, Hn. split; reflexivity. }
  destruct Hw as (w & Hw & Hfalsy).
  apply process_diagnostic_input_shape in H
    as (f & ws & d & w' & Hw' & _ & Hsel & Hfalse & -> & Hl & Hrun).
  rewrite Hw in Hw'. injection Hw' as <-.
  destruct (Hfalse Hfalsy) as [-> Hen].
  destruct (Hrun st) as (Hgw & _ & _).
  split; [rewrite Hen; reflexivity|].
  split.
  - selection_cases Hsel; cbn; try discriminate.
    specialize (Hen (initial_params spec st)). discriminate Hen.
  - rewrite Hgw, Hl. apply lookup_fresh.
Qed.

Lemma no_ai_request_no_dain_witness :
  exists p st',
    process_diagnostic_input
      (delete "customization_requests" (example_spec "cloud" "advanced" true))
      init_state = (Ok p, st') /\
    enable_dain_generation p = false /\
    architecture p <> "decoupled_dain" /\
    lists st' !! generation_warnings p = Some [].
Proof.
  destruct (process_diagnostic_input
              (delete "customization_requests" (example_spec "cloud" "advanced" true))
              init_state) as [[p|e] st'] eqn:H;
    [|vm_compute in H; discriminate H].
  exists p, st'. split; [reflexivity|].
  refine (no_ai_request_no_dain _ _ _ _ _ H). left. reflexivity.
Defined.

(** X5: a returned plan carries at most one warning: none when DAIN
    generation is enabled, otherwise none or the hardware warning on
    [two_node], none or the capacity warning on [decoupled_non_dain]. *)
Theorem warnings_at_most_one (spec : dict) (st st' : state)
    (p : ForgeGenerationParameters) :
  process_diagnostic_input spec st = (Ok p, st') ->
  exists ws,
    lists st' !! generation_warnings p = Some ws /\
    length ws <= 1 /\
    (enable_dain_generation p = true -> ws = []) /\
    (ws = [] \/
     ws = [hardware_warning] /\ architecture p = "two_node" \/
     ws = [capacity_warning] /\ architecture p = "decoupled_non_dain").
Proof.
  intros H.
  apply process_diagnostic_input_shape in H
    as (f & ws & d & w & _ & _ & Hsel & _ & -> & Hl & Hrun).
  destruct (Hrun st) as (Hgw & _ & _).
  exists ws. split; [rewrite Hgw, Hl; apply lookup_fresh|].
  selection_cases Hsel; cbn; try destruct Hws as [-> | ->]; subst; cbn;
    repeat split; auto; try discriminate.
Qed.

Lemma warnings_at_most_one_witness :
  exists p st' ws,
    process_diagnostic_input (example_spec "desktop" "advanced" true) init_state
      = (Ok p, st') /\
    lists st' !! generation_warnings p = Some ws /\
    length ws <= 1.
Proof.
  destruct (process_diagnostic_input (example_spec "desktop" "advanced" true)
              init_state) as [[p|e] st'] eqn:H;
    [|vm_compute in H; discriminate H].
  destruct (warnings_at_most_one _ _ _ _ H) as (ws & Hws & Hlen & _).
  exists p, st', ws. split; [reflexivity|]. split; assumption.
Defined.

(** X6: in a returned plan the memory limit goes with the architecture:
    ["4G"] or ["8G"] on [decoupled_dain], none on [decoupled_non_dain], none,
    ["3G"] or ["6G"] on [two_node].  The ["1G"] fallback of
    [_calculate_memory_limit] is never what a plan carries. *)
Theorem memory_limit_by_architecture (spec : dict) (st st' : state)
    (p : ForgeGenerationParameters) :
  process_diagnostic_input spec st = (Ok p, st') ->
  (architecture p = "decoupled_dain" /\
     (memory_limit p = Some "4G" \/ memory_limit p = Some "8G") \/
   architecture p = "decoupled_non_dain" /\ memory_limit p = None \/
   architecture p = "two_node" /\
     (memory_limit p = None \/ memory_limit p = Some "3G" \/
      memory_limit p = Some "6G")) /\
  memory_limit p <> Some "1G".
Proof.
  intros H.
  apply process_diagnostic_input_shape in H
    as (f & ws & d & w & _ & _ & Hsel & _ & -> & _ & _).
  selection_cases Hsel; cbn; try destruct Hm as [-> | ->];
    (split; [tauto | discriminate]).
Qed.

Lemma memory_limit_by_architecture_witness :
  exists p st',
    process_diagnostic_input (example_spec "raspberry_pi" "basic" false) init_state
      = (Ok p, st') /\
    memory_limit p <> Some "1G".
Proof.
  destruct (process_diagnostic_input (example_spec "raspberry_pi" "basic" false)
              init_state) as [[p|e] st'] eqn:H;
    [|vm_compute in H; discriminate H].
  exists p, st'. split; [reflexivity|].
  exact (proj2 (memory_limit_by_architecture _ _ _ _ H)).
Defined.

(** X7: planning the same specification again, in whatever state, returns
    a plan with the same architecture, memory limit, DAIN flag, requirements
    and warnings; its warning list is a new object, so when the second call
    follows the first the two plans do not share their warnings. *)
Theorem replanning_gives_equal_plan (spec : dict) (st st1 : state)
    (p1 : ForgeGenerationParameters) :
  process_diagnostic_input spec st = (Ok p1, st1) ->
  (forall st2 : state,
     exists p2 st2',
       process_diagnostic_input spec st2 = (Ok p2, st2') /\
       architecture p2 = architecture p1 /\
       memory_limit p2 = memory_limit p1 /\
       enable_dain_generation p2 = enable_dain_generation p1 /\
       constitutional_requirements p2 = constitutional_requirements p1 /\
       lists st2' !! generation_warnings p2 = lists st1 !! generation_warnings p1) /\
  (exists p2 st2,
     process_diagnostic_input spec st1 = (Ok p2, st2) /\
     generation_warnings p2 <> generation_warnings p1 /\
     lists st2 !! generation_warnings p1 = lists st1 !! generation_warnings p1).
Proof.
  intros H.
  apply process_diagnostic_input_shape in H
    as (f & ws & d & w & _ & _ & Hsel & _ & -> & Hl & Hrun).
  destruct (Hrun st) as (Hgw & Hreq & _).
  split.
  - intros st2. destruct (Hrun st2) as (Hgw2 & Hreq2 & Hp2).
    do 2 eexists. split; [exact Hp2|].
    cbn [lists]. rewrite Hgw2, Hgw, Hl, Hreq, Hreq2, !lookup_fresh.
    selection_cases Hsel; cbn; repeat split.
  - destruct (Hrun st1) as (Hgw2 & _ & Hp2).
    do 2 eexists. split; [exact Hp2|].
    cbn [lists]. rewrite Hgw2, Hgw, Hl. split.
    + rewrite length_app. cbn. lia.
    + rewrite lookup_fresh. apply lookup_app_l_Some. apply lookup_fresh.
Qed.

Lemma replanning_gives_equal_plan_witness :
  exists p1 st1 p2 st2,
    process_diagnostic_input (example_spec "dedicated" "basic" true) init_state
      = (Ok p1, st1) /\
    process_diagnostic_input (example_spec "dedicated" "basic" true) st1
      = (Ok p2, st2) /\
    generation_warnings p2 <> generation_warnings p1.
Proof.
  destruct (process_diagnostic_input (example_spec "dedicated" "basic" true)
              init_state) as [[p1|e] st1] eqn:H;
    [|vm_compute in H; discriminate H].
  destruct (proj2 (replanning_gives_equal_plan _ _ _ _ H)) as (p2 & st2 & H2 & Hne & _).
  exists p1, st1, p2, st2. split; [reflexivity|]. split; assumption.
Defined.

(** X8: in a returned plan the constitutional requirements are those of the
    specification, untouched by the decision, and an empty list when the
    specification has none. *)
Theorem requirements_passed_through (spec : dict) (st st' : state)
    (p : ForgeGenerationParameters) :
  process_diagnostic_input spec st = (Ok p, st') ->
  constitutional_requirements p =
    match spec !! "constitutional_requirements" with
    | Some v => v
    | None => VList []
    end.
Proof.
  intros H.
  apply process_diagnostic_input_shape in H
    as (f & ws & d & w & _ & _ & _ & _ & -> & _ & Hrun).
  destruct (Hrun st) as (_ & Hreq & _). exact Hreq.
Qed.

Lemma requirements_passed_through_witness :
  exists p st',
    process_diagnostic_input
      (<["constitutional_requirements" := VList [VStr "audit"]]> skyrim_spec)
      init_state = (Ok p, st') /\
    constitutional_requirements p = VList [VStr "audit"].
Proof.
  destruct (process_diagnostic_input
              (<["constitutional_requirements" := VList [VStr "audit"]]> skyrim_spec)
              init_state) as [[p|e] st'] eqn:H;
    [|vm_compute in H; discriminate H].
  exists p, st'. split; [reflexivity|].
  exact (requirements_passed_through _ _ _ _ H).
Defined.

(** ** The forge specification *)

(** X9: a forge returned by [generate_forge] is marked ["verified"], names
    the domain read from the specification, copies its success metrics (an
    empty list when there are none), and lists seven files exactly when its
    architecture is [decoupled_dain], five otherwise; its architecture is
    the one written to the last log entry. *)
Theorem generate_forge_result (py_repr : value -> string) (spec : dict)
    (st st' : state) (f : forge_spec) :
  generate_forge py_repr spec st = (Ok f, st') ->
  fs_constitutional_compliance f = "verified" /\
  context_domain spec = Ok (fs_domain f) /\
  fs_success_metrics f =
    match spec !! "success_metrics" with
    | Some v => v
    | None => VList []
    end /\
  (fs_architecture f = "decoupled_dain" /\ length (fs_files_generated f) = 7 \/
   (fs_architecture f = "two_node" \/ fs_architecture f = "decoupled_non_dain") /\
     length (fs_files_generated f) = 5) /\
  exists e,
    last (generation_log st') = Some e /\
    log_architecture e = fs_architecture f /\
    log_domain e = fs_domain f.
Proof.
  intros H.
  apply generate_forge_ok in H as (p & d & files & _ & Hp & Hd & Hf & ->).
  cbn [fs_constitutional_compliance fs_domain fs_success_metrics
       fs_architecture fs_files_generated].
  split; [reflexivity|]. split; [exact Hd|]. split; [reflexivity|].
  apply process_diagnostic_input_ok in Hp as (d' & ws & Hd' & _ & _ & Hlog & Harch).
  rewrite Hd in Hd'. injection Hd' as <-.
  unfold _generate_forge_files in Hf. rewrite Hd in Hf. cbn [bindR] in Hf.
  split.
  - destruct Harch as [[Ha _] | [[Ha _] | [Ha _]]]; rewrite Ha in Hf |- *;
      cbn in Hf; injection Hf as <-; [right | left | right]; split; auto.
  - exists (entry_of d p). rewrite Hlog, last_snoc. repeat split.
Qed.

Lemma generate_forge_result_witness :
  exists f st',
    generate_forge (fun _ => "") (example_spec "cloud" "advanced" true) init_state
      = (Ok f, st') /\
    fs_constitutional_compliance f = "verified" /\
    length (fs_files_generated f) = 7.
Proof.
  destruct (generate_forge (fun _ => "") (example_spec "cloud" "advanced" true)
              init_state) as [[f|e] st'] eqn:H;
    [|vm_compute in H; discriminate H].
  destruct (generate_forge_result _ _ _ _ _ H) as (Hc & _ & _ & Hfiles & _).
  exists f, st'. split; [reflexivity|]. split; [exact Hc|].
  destruct Hfiles as [[_ Hlen] | [[Ha | Ha] _]]; [exact Hlen | |];
    vm_compute in H; injection H as <- _; discriminate Ha.
Defined.

Lemma append_inj (s a b : string) : s +:+ a = s +:+ b -> a = b.
Proof.
  induction s as [|c s IH]; intros H; [exact H|].
  apply IH. change (String c (s +:+ a) = String c (s +:+ b)) in H.
  injection H as H. exact H.
Qed.

Lemma file_suffixes_distinct : NoDup file_suffixes.
Proof.
  unfold file_suffixes.
  repeat (apply NoDup_cons; split;
          [intros Hin; repeat (apply elem_of_cons in Hin as [Hin | Hin];
                               [discriminate Hin|]);
           apply elem_of_nil in Hin; exact Hin|]).
  apply NoDup_nil. exact I.
Qed.

(** X10: [_generate_forge_files] raises exactly what reading the domain
    raises; otherwise its descriptors are the rendered domain name followed
    by the first five or all seven fixed endings, and no two of them are
    equal. *)
Theorem forge_files_distinct (py_repr : value -> string) (spec : dict)
    (p : ForgeGenerationParameters) :
  match context_domain spec with
  | Ok d =>
      exists n,
        (n = 5 \/ n = 7) /\
        _generate_forge_files py_repr spec p =
          Ok (map (String.append (py_str py_repr d)) (take n file_suffixes)) /\
        NoDup (map (String.append (py_str py_repr d)) (take n file_suffixes))
  | Raise e => _generate_forge_files py_repr spec p = Raise e
  end.
Proof.
  unfold _generate_forge_files.
  destruct (context_domain spec) as [d|e]; [|reflexivity].
  cbn [bindR].
  assert (Hnd : forall n,
             NoDup (map (String.append (py_str py_repr d)) (take n file_suffixes))).
  { intros n.
    apply (@NoDup_fmap_2 _ _ _ (fun a b => append_inj (py_str py_repr d) a b)).
    apply (sublist_NoDup _ file_suffixes);
      [apply file_suffixes_distinct | apply sublist_take]. }
  destruct (String.eqb (architecture p) "decoupled_dain").
  - exists 7. split; [right; reflexivity|]. split; [reflexivity | apply Hnd].
  - exists 5. split; [left; reflexivity|]. split; [reflexivity | apply Hnd].
Qed.

(** ** What validation looks at *)

(** X11: [validate_domain_spec] looks only at whether [pattern] and
    [context] are there and at the value of [constraints]: two
    specifications that agree on these get the same answer, whatever else
    they hold and whatever is stored under [pattern] and [context]. *)
Theorem validate_domain_spec_frame (spec spec' : dict) :
  (is_Some (spec !! "pattern") <-> is_Some (spec' !! "pattern")) ->
  (is_Some (spec !! "context") <-> is_Some (spec' !! "context")) ->
  spec !! "constraints" = spec' !! "constraints" ->
  validate_domain_spec spec = validate_domain_spec spec'.
Proof.
  intros Hp Hx Hc. rewrite !validate_domain_spec_cases, <- Hc.
  destruct (spec !! "pattern") as [a|], (spec' !! "pattern") as [a'|];
    try (exfalso; destruct Hp as [H1 H2];
         first [destruct H1 as [? H]; [eexists; reflexivity | discriminate H]
               | destruct H2 as [? H]; [eexists; reflexivity | discriminate H]]);
    [|reflexivity].
  destruct (spec !! "context") as [b|], (spec' !! "context") as [b'|];
    try (exfalso; destruct Hx as [H1 H2];
         first [destruct H1 as [? H]; [eexists; reflexivity | discriminate H]
               | destruct H2 as [? H]; [eexists; reflexivity | discriminate H]]);
    reflexivity.
Qed.

Lemma validate_domain_spec_frame_witness :
  validate_domain_spec
    (<["context" := VNone]> (delete "customization_requests" skyrim_spec))
  = validate_domain_spec skyrim_spec.
Proof.
  apply validate_domain_spec_frame.
  - split; intros _; eexists; reflexivity.
  - split; intros _; eexists; reflexivity.
  - reflexivity.
Defined.



(** X13: passing validation does not make [constraints] a mapping.  When it
    is not one (a string or a list that mentions ["hardware"] passes),
    [process_diagnostic_input] raises [TypeError] on its first read and
    changes nothing, and [generate_forge] raises it as well once the domain
    has been read. *)
Theorem non_mapping_constraints_type_error (py_repr : value -> string)
    (spec : dict) (v d : value) (st : state) :
  spec !! "constraints" = Some v ->
  (forall c, v <> VDict c) ->
  validate_domain_spec spec = Ok true ->
  context_domain spec = Ok d ->
  process_diagnostic_input spec st = (Raise TypeError, st) /\
  generate_forge py_repr spec st = (Raise TypeError, st).
Proof.
  intros Hc Hv Hval Hd.
  assert (Hh : constraint spec "hardware" = Raise TypeError).
  { unfold constraint, dict_getitem. rewrite Hc. cbn [bindR].
    destruct v as [| | | | |c]; try reflexivity. destruct (Hv c eq_refl). }
  assert (Hp : process_diagnostic_input spec st = (Raise TypeError, st)).
  { unfold process_diagnostic_input. apply bind_lift_raise. exact Hh. }
  split; [exact Hp|].
  unfold generate_forge.
  rewrite (bind_lift_ok _ _ _ _ Hd), (bind_lift_ok _ _ _ _ Hval).
  unfold bind at 1. rewrite Hp. reflexivity.
Qed.

Lemma non_mapping_constraints_type_error_witness :
  process_diagnostic_input
    (<["constraints" := VStr "no hardware here"]> skyrim_spec) init_state
    = (Raise TypeError, init_state) /\
  generate_forge (fun _ => "")
    (<["constraints" := VStr "no hardware here"]> skyrim_spec) init_state
    = (Raise TypeError, init_state).
Proof.
  apply (non_mapping_constraints_type_error (fun _ => "")
           (<["constraints" := VStr "no hardware here"]> skyrim_spec)
           (VStr "no hardware here") (VStr "skyrim_modding_ecosystem") init_state);
    first [reflexivity | discriminate].
Defined.

(** ** Loading the kernel *)

(** X14: [_load_kernel] returns the parsed document, unchanged, exactly when
    it is a mapping, with or without a [constitutional_version]; a source
    that cannot be read, and a document that parses but is no mapping (an
    empty file gives [None]), both end in the same plain exception, whose
    text starts with the fixed prefix. *)
Theorem load_kernel_mapping_only (files : string -> read_outcome) (path : string) :
  (forall k, _load_kernel files path = Loaded k <->
             files path = Parsed k /\ exists d, k = VDict d) /\
  (forall msg, _load_kernel files path = LoadException msg ->
     String.prefix "Constitutional violation: Cannot load kernel - " msg = true /\
     forall d, files path <> Parsed (VDict d)).
Proof.
  unfold _load_kernel, load_failure. split.
  - intros k. destruct (files path) as [m|doc].
    + split; [discriminate | intros [H _]; discriminate H].
    + destruct doc as [| | | | |d]; cbn [get];
        (split; [try discriminate | intros [H [d' ->]]; injection H as H;
                                    try discriminate H]).
      * intros H. injection H as <-. split; [reflexivity | eexists; reflexivity].
      * rewrite H. reflexivity.
  - intros msg H. destruct (files path) as [m|doc].
    + injection H as <-. split; [apply prefix_append | discriminate].
    + destruct doc as [| | | | |d]; cbn [get] in H; try discriminate H;
        injection H as <-; (split; [apply prefix_append | discriminate]).
Qed.

Lemma load_kernel_mapping_only_witness :
  _load_kernel (fun _ => Parsed VNone) "kernel.yml"
    = LoadException "Constitutional violation: Cannot load kernel - 'NoneType' object has no attribute 'get'" /\
  String.prefix "Constitutional violation: Cannot load kernel - "
    "Constitutional violation: Cannot load kernel - 'NoneType' object has no attribute 'get'"
    = true.
Proof.
  assert (H : _load_kernel (fun _ => Parsed VNone) "kernel.yml"
              = LoadException "Constitutional violation: Cannot load kernel - 'NoneType' object has no attribute 'get'")
    by reflexivity.
  split; [exact H|].
  exact (proj1 (proj2 (load_kernel_mapping_only _ _) _ H)).
Defined.

(** ** What the decision does not look at *)

Lemma select_architecture_capacity (h t t' w : value)
    (p : ForgeGenerationParameters) (st : state) :
  in_strs h ["dedicated"; "cloud"] = false ->
  select_architecture h t' w p st = select_architecture h t w p st.
Proof. intros H. unfold select_architecture. rewrite H. reflexivity. Qed.

(** X15: the technical capacity must be there, but unless the hardware is
    [dedicated] or [cloud] its value changes nothing: replacing it by any
    other value gives the same result and the same state. *)
Theorem technical_capacity_irrelevant (spec c : dict) (h t t' : value) (st : state) :
  spec !! "constraints" = Some (VDict c) ->
  c !! "hardware" = Some h ->
  c !! "technical_capacity" = Some t ->
  h <> VStr "dedicated" ->
  h <> VStr "cloud" ->
  process_diagnostic_input
    (<["constraints" := VDict (<["technical_capacity" := t']> c)]> spec) st
  = process_diagnostic_input spec st.
Proof.
  intros Hc Hh Ht H1 H2.
  set (spec' := <["constraints" := VDict (<["technical_capacity" := t']> c)]> spec).
  assert (Hc' : spec' !! "constraints" = Some (VDict (<["technical_capacity" := t']> c)))
    by apply lookup_insert_eq.
  assert (Hother : forall k, k <> "constraints" -> spec' !! k = spec !! k)
    by (intros k Hk; apply lookup_insert_ne; congruence).
  assert (Rh : constraint spec "hardware" = Ok h)
    by (rewrite (constraint_lookup _ _ _ Hc); unfold dict_getitem; rewrite Hh; reflexivity).
  assert (Rt : constraint spec "technical_capacity" = Ok t)
    by (rewrite (constraint_lookup _ _ _ Hc); unfold dict_getitem; rewrite Ht; reflexivity).
  assert (Rh' : constraint spec' "hardware" = Ok h).
  { rewrite (constraint_lookup _ _ _ Hc'). unfold dict_getitem.
    rewrite lookup_insert_ne by discriminate. rewrite Hh. reflexivity. }
  assert (Rt' : constraint spec' "technical_capacity" = Ok t').
  { rewrite (constraint_lookup _ _ _ Hc'). unfold dict_getitem.
    rewrite lookup_insert_eq. reflexivity. }
  assert (Rw : wants_ai_nodes spec' = wants_ai_nodes spec)
    by (unfold wants_ai_nodes, dict_get; rewrite Hother by discriminate; reflexivity).
  assert (Rd : context_domain spec' = context_domain spec)
    by (unfold context_domain, dict_getitem; rewrite Hother by discriminate; reflexivity).
  assert (Ri : initial_params spec' st = initial_params spec st)
    by (unfold initial_params, dict_get; rewrite Hother by discriminate; reflexivity).
  destruct (wants_ai_nodes spec) as [w|e] eqn:Hw.
  - rewrite (process_diagnostic_input_select spec' h t' w st Rh' Rt' Rw).
    rewrite (process_diagnostic_input_select spec h t w st Rh Rt Hw).
    rewrite Ri, Rd.
    rewrite (select_architecture_capacity h t t' w).
    + reflexivity.
    + apply in_strs_false. intros s [<- | [<- | []]]; assumption.
  - unfold process_diagnostic_input.
    rewrite (bind_lift_ok _ _ _ _ Rh'), (bind_lift_ok _ _ _ _ Rt'),
      (bind_lift_ok _ _ _ _ Rh), (bind_lift_ok _ _ _ _ Rt).
    rewrite (bind_lift_raise _ _ _ _ Rw), (bind_lift_raise _ _ _ _ Hw).
    reflexivity.
Qed.

Lemma technical_capacity_irrelevant_witness :
  process_diagnostic_input
    (<["constraints" := VDict (<["technical_capacity" := VStr "advanced"]>
        (<["hardware" := VStr "desktop"]> (<["technical_capacity" := VStr "basic"]> ∅)))]>
       skyrim_spec) init_state
  = process_diagnostic_input skyrim_spec init_state.
Proof.
  apply (technical_capacity_irrelevant skyrim_spec
           (<["hardware" := VStr "desktop"]> (<["technical_capacity" := VStr "basic"]> ∅))
           (VStr "desktop") (VStr "basic") (VStr "advanced") init_state);
    first [reflexivity | discriminate].
Defined.
